(** * Productivity tracker: the session state machine, the idle check,
      the time-gap sleep detector, the capped activity log and the
      persistence snapshot of [productivity_tracker.py].

    The class [ProductivityTracker] is embedded as a record of its
    attributes together with the part of the environment its methods touch
    (the two JSON files, the console, the message boxes and the Tk [after]
    queue).  Methods are computations in a state-and-exception monad: a
    Python exception keeps the attribute writes made before it was raised.

    Conventions of the model:
    - The readings of [time.time()] and [datetime.now()] made during one
      method call are taken to agree: a call receives an [Instant] holding
      the seconds since the epoch and the two renderings of the local date
      that the code prints.  Seconds are exact integers; floating-point
      rounding is not modelled.  The part "The clock read call by call"
      drops this convention for the four transitions: there every read of
      [time.time()] has its own value, in clock ticks.
    - Widget configuration (label texts, colours, button states, the log
      text box) is presentation only and is left out; the Tk variable
      [idle_timeout_var] is kept because [save_state] reads it.
    - The values in the configuration file and in the log file are typed
      as [save_state] and [save_log] write them: a configuration file that
      parses to an object has a boolean under [is_logged_in] and an
      integer under [idle_timeout_minutes], where the key is present, and
      a log file that parses holds a list of entries.  Files with other
      values under these keys ([null] or a string as the timeout, a log
      that is an object) are not values of the model, and the code
      behaves differently on them: [load_state] may raise at the
      multiplication and reset the flag, [check_idle_status] and
      [log_activity] may raise later on.  Reading the IntVar is taken to
      succeed, that is, the spinbox holds an integer whenever it is read.
      The properties about start-up and about whole runs are stated for
      these files and this spinbox. *)

From Stdlib Require Import ZArith List String Bool Lia DecimalString.
Import ListNotations.
Open Scope Z_scope.
Open Scope string_scope.

(* ================================================================== *)
(** ** Data *)

(** One reading of the wall clock. *)
Record Instant := mkInstant {
  secs  : Z;        (* time.time() *)
  stamp : string;   (* datetime.now().strftime("%Y-%m-%d %H:%M:%S") *)
  iso   : string    (* datetime.now().isoformat() *)
}.

(** An entry of [activity_log]: a dict with three string values. *)
Record LogEntry := mkEntry {
  timestamp : string;
  event     : string;
  details   : string
}.

(** The object [save_state] dumps and [load_state] reads back; a key may be
    absent from a file that was not written by this program. *)
Record StateFile := mkStateFile {
  sf_is_logged_in         : option bool;
  sf_is_on_break          : option bool;
  sf_idle_timeout_minutes : option Z;
  sf_last_save            : option string
}.

Inductive ConfigJson :=
| CfgObject (o : StateFile)
| CfgOther (type_name : string).  (* valid JSON that is not an object *)

(** What reading a file yields. *)
Inductive FileRead (A : Type) :=
| Missing                         (* os.path.exists is False *)
| Unreadable (msg : string)       (* open(..., 'r') raises *)
| Undecodable (msg : string)      (* json.load raises *)
| Holds (a : A).
Arguments Missing {A}.
Arguments Unreadable {A} msg.
Arguments Undecodable {A} msg.
Arguments Holds {A} a.

Record FileSlot (A : Type) := mkSlot {
  content     : FileRead A;
  write_error : option string     (* Some m: open(..., 'w') raises OSError m *)
}.
Arguments mkSlot {A}.
Arguments content {A}.
Arguments write_error {A}.

Inductive Dialog :=
| ShowWarning (title msg : string)
| ShowInfo (title msg : string)
| AskYesNo (title msg : string) (answer : bool)
| AskOkCancel (title msg : string) (answer : bool).

(** Targets of [root.after]. *)
Inductive Callback := CbClockIn | CbPromptClockIn.

(** The attributes of the session state machine. *)
Record Session := mkSession {
  is_logged_in      : bool;
  is_on_break       : bool;
  clock_in_time     : option Z;   (* None or a time.time() reading *)
  break_start_time  : option Z;
  total_active_time : Z;
  total_break_time  : Z
}.

(** Activity monitoring and its configuration. *)
Record Monitor := mkMonitor {
  last_activity_time   : Z;
  idle_timeout_seconds : Z;
  idle_timeout_var     : Z;       (* the Tk IntVar behind the spinbox *)
  mouse_listener       : bool;    (* false: None; true: a started listener *)
  keyboard_listener    : bool
}.

(** Threads and the attributes that exist only once assigned. *)
Record Threads := mkThreads {
  running               : bool;
  idle_checker_thread   : bool;   (* started and alive *)
  ui_updater_thread     : bool;
  sleep_detector_thread : bool;
  last_check_time       : option Z;     (* None: the attribute is missing *)
  _was_logged_in        : option bool   (* None: the attribute is missing *)
}.

Record Env := mkEnv {
  config_file : FileSlot ConfigJson;        (* tracker_config.json *)
  log_file    : FileSlot (list LogEntry);   (* activity_log.json *)
  console     : list string;                (* lines printed *)
  dialogs     : list Dialog;                (* message boxes shown *)
  after_queue : list (Z * Callback)         (* pending root.after calls *)
}.

Record World := mkWorld {
  sess         : Session;
  mon          : Monitor;
  thr          : Threads;
  activity_log : list LogEntry;
  env          : Env
}.

(** The three states of the specification, read off the two flags the way
    [check_idle_status] and [clock_out] test them. *)
Inductive Status := LoggedOut | Active | OnBreak.

Definition status (w : World) : Status :=
  if is_logged_in (sess w)
  then if is_on_break (sess w) then OnBreak else Active
  else LoggedOut.

(* ------------------------------------------------------------------ *)
(** *** Attribute assignment *)

Definition set_is_logged_in (v : bool) (s : Session) : Session :=
  mkSession v (is_on_break s) (clock_in_time s) (break_start_time s)
            (total_active_time s) (total_break_time s).
Definition set_is_on_break (v : bool) (s : Session) : Session :=
  mkSession (is_logged_in s) v (clock_in_time s) (break_start_time s)
            (total_active_time s) (total_break_time s).
Definition set_clock_in_time (v : option Z) (s : Session) : Session :=
  mkSession (is_logged_in s) (is_on_break s) v (break_start_time s)
            (total_active_time s) (total_break_time s).
Definition set_break_start_time (v : option Z) (s : Session) : Session :=
  mkSession (is_logged_in s) (is_on_break s) (clock_in_time s) v
            (total_active_time s) (total_break_time s).
Definition set_total_active_time (v : Z) (s : Session) : Session :=
  mkSession (is_logged_in s) (is_on_break s) (clock_in_time s)
            (break_start_time s) v (total_break_time s).
Definition set_total_break_time (v : Z) (s : Session) : Session :=
  mkSession (is_logged_in s) (is_on_break s) (clock_in_time s)
            (break_start_time s) (total_active_time s) v.

Definition set_last_activity_time (v : Z) (m : Monitor) : Monitor :=
  mkMonitor v (idle_timeout_seconds m) (idle_timeout_var m)
            (mouse_listener m) (keyboard_listener m).
Definition set_idle_timeout_seconds (v : Z) (m : Monitor) : Monitor :=
  mkMonitor (last_activity_time m) v (idle_timeout_var m)
            (mouse_listener m) (keyboard_listener m).
Definition set_idle_timeout_var (v : Z) (m : Monitor) : Monitor :=
  mkMonitor (last_activity_time m) (idle_timeout_seconds m) v
            (mouse_listener m) (keyboard_listener m).
Definition set_mouse_listener (v : bool) (m : Monitor) : Monitor :=
  mkMonitor (last_activity_time m) (idle_timeout_seconds m)
            (idle_timeout_var m) v (keyboard_listener m).
Definition set_keyboard_listener (v : bool) (m : Monitor) : Monitor :=
  mkMonitor (last_activity_time m) (idle_timeout_seconds m)
            (idle_timeout_var m) (mouse_listener m) v.

Definition set_running (v : bool) (t : Threads) : Threads :=
  mkThreads v (idle_checker_thread t) (ui_updater_thread t)
            (sleep_detector_thread t) (last_check_time t) (_was_logged_in t).
Definition set_idle_checker_thread (v : bool) (t : Threads) : Threads :=
  mkThreads (running t) v (ui_updater_thread t)
            (sleep_detector_thread t) (last_check_time t) (_was_logged_in t).
Definition set_ui_updater_thread (v : bool) (t : Threads) : Threads :=
  mkThreads (running t) (idle_checker_thread t) v
            (sleep_detector_thread t) (last_check_time t) (_was_logged_in t).
Definition set_sleep_detector_thread (v : bool) (t : Threads) : Threads :=
  mkThreads (running t) (idle_checker_thread t) (ui_updater_thread t)
            v (last_check_time t) (_was_logged_in t).
Definition set_last_check_time (v : option Z) (t : Threads) : Threads :=
  mkThreads (running t) (idle_checker_thread t) (ui_updater_thread t)
            (sleep_detector_thread t) v (_was_logged_in t).
Definition set_was_logged_in (v : option bool) (t : Threads) : Threads :=
  mkThreads (running t) (idle_checker_thread t) (ui_updater_thread t)
            (sleep_detector_thread t) (last_check_time t) v.

Definition set_config_file (v : FileSlot ConfigJson) (e : Env) : Env :=
  mkEnv v (log_file e) (console e) (dialogs e) (after_queue e).
Definition set_log_file (v : FileSlot (list LogEntry)) (e : Env) : Env :=
  mkEnv (config_file e) v (console e) (dialogs e) (after_queue e).
Definition set_console (v : list string) (e : Env) : Env :=
  mkEnv (config_file e) (log_file e) v (dialogs e) (after_queue e).
Definition set_dialogs (v : list Dialog) (e : Env) : Env :=
  mkEnv (config_file e) (log_file e) (console e) v (after_queue e).
Definition set_after_queue (v : list (Z * Callback)) (e : Env) : Env :=
  mkEnv (config_file e) (log_file e) (console e) (dialogs e) v.

Definition with_sess (f : Session -> Session) (w : World) : World :=
  mkWorld (f (sess w)) (mon w) (thr w) (activity_log w) (env w).
Definition with_mon (f : Monitor -> Monitor) (w : World) : World :=
  mkWorld (sess w) (f (mon w)) (thr w) (activity_log w) (env w).
Definition with_thr (f : Threads -> Threads) (w : World) : World :=
  mkWorld (sess w) (mon w) (f (thr w)) (activity_log w) (env w).
Definition with_log (f : list LogEntry -> list LogEntry) (w : World) : World :=
  mkWorld (sess w) (mon w) (thr w) (f (activity_log w)) (env w).
Definition with_env (f : Env -> Env) (w : World) : World :=
  mkWorld (sess w) (mon w) (thr w) (activity_log w) (f (env w)).

(* ================================================================== *)
(** ** The monad of method bodies *)

Inductive Exn :=
| AttributeError (type_name attr : string)
| TypeError (msg : string)
| OSError (msg : string)
| JSONDecodeError (msg : string).

(** [str(e)] as the handlers print it. *)
Definition exn_str (e : Exn) : string :=
  match e with
  | AttributeError ty a =>
      "'" ++ ty ++ "' object has no attribute '" ++ a ++ "'"
  | TypeError m => m
  | OSError m => m
  | JSONDecodeError m => m
  end.

Inductive Outcome (A : Type) :=
| Returns (a : A) (w : World)
| Raises (e : Exn) (w : World).
Arguments Returns {A} a w.
Arguments Raises {A} e w.

Definition M (A : Type) := World -> Outcome A.

Definition ret {A} (a : A) : M A := fun w => Returns a w.
Definition raise {A} (e : Exn) : M A := fun w => Raises e w.
Definition bind {A B} (c : M A) (k : A -> M B) : M B :=
  fun w => match c w with
           | Returns a w' => k a w'
           | Raises e w' => Raises e w'
           end.
Definition gets {A} (f : World -> A) : M A := fun w => Returns (f w) w.
Definition modify (f : World -> World) : M unit := fun w => Returns tt (f w).

(** [try: body except Exception as e: handler e]. *)
Definition try_except {A} (body : M A) (handler : Exn -> M A) : M A :=
  fun w => match body w with
           | Returns a w' => Returns a w'
           | Raises e w' => handler e w'
           end.

Notation "x <- c ;; k" := (bind c (fun x => k))
  (at level 61, c at next level, right associativity).
Notation "c ;; k" := (bind c (fun _ => k))
  (at level 61, right associativity).

Definition when (b : bool) (c : M unit) : M unit := if b then c else ret tt.

Definition world_of {A} (o : Outcome A) : World :=
  match o with Returns _ w => w | Raises _ w => w end.

Definition print (line : string) : M unit :=
  modify (with_env (fun e => set_console (console e ++ [line]) e)).
Definition show (d : Dialog) : M unit :=
  modify (with_env (fun e => set_dialogs (dialogs e ++ [d]) e)).
Definition root_after (ms : Z) (cb : Callback) : M unit :=
  modify (with_env (fun e => set_after_queue (after_queue e ++ [(ms, cb)]) e)).

(* ================================================================== *)
(** ** Formatting *)

(** The line break of a Python string literal. *)
Definition nl : string := String (Ascii.ascii_of_nat 10) "".

(** [str(n)] for a Python int. *)
Definition str_int (n : Z) : string := NilZero.string_of_int (Z.to_int n).

(** [int(x / 60)]: true division, then truncation toward zero. *)
Definition minutes (x : Z) : Z := Z.quot x 60.

Definition pad2 (n : Z) : string :=
  if (n <? 10)%Z then "0" ++ str_int n else str_int n.

(** [str(timedelta(seconds=n))]: the days are the floor of [n / 86400] and
    the clock part is what remains, as [timedelta] normalises it. *)
Definition timedelta_str (n : Z) : string :=
  let days := n / 86400 in
  let rest := n mod 86400 in
  let hh := rest / 3600 in
  let mm := (rest / 60) mod 60 in
  let ss := rest mod 60 in
  let clock := str_int hh ++ ":" ++ pad2 mm ++ ":" ++ pad2 ss in
  if (days =? 0)%Z then clock
  else str_int days ++ " day" ++ (if (Z.abs days =? 1)%Z then "" else "s")
       ++ ", " ++ clock.

(** [l[-n:]] for [n > 0]. *)
Definition lastn {A} (n : nat) (l : list A) : list A :=
  skipn (List.length l - n) l.

(** Truth value of [self.clock_in_time]: [None] and [0.0] are false. *)
Definition truthy_time (o : option Z) : bool :=
  match o with
  | Some t => negb (t =? 0)%Z
  | None => false
  end.

(* ================================================================== *)
(** ** Persistence *)

(** [with open(F, 'w') as f: json.dump(data, f)] on the configuration
    file and on the log file. *)
Definition write_config (data : ConfigJson) : M unit :=
  slot <- gets (fun w => config_file (env w)) ;;
  match write_error slot with
  | Some m => raise (OSError m)
  | None =>
      modify (with_env (set_config_file (mkSlot (Holds data) None)))
  end.

Definition write_log (data : list LogEntry) : M unit :=
  slot <- gets (fun w => log_file (env w)) ;;
  match write_error slot with
  | Some m => raise (OSError m)
  | None =>
      modify (with_env (set_log_file (mkSlot (Holds data) None)))
  end.

(** [with open(F, 'r') as f: json.load(f)], entered when the file exists. *)
Definition read_json {A} (r : FileRead A) : M (option A) :=
  match r with
  | Missing => ret None
  | Unreadable m => raise (OSError m)
  | Undecodable m => raise (JSONDecodeError m)
  | Holds a => ret (Some a)
  end.

Definition save_state (now : Instant) : M unit :=
  s <- gets sess ;;
  m <- gets mon ;;
  let state := mkStateFile (Some (is_logged_in s)) (Some (is_on_break s))
                           (Some (idle_timeout_var m)) (Some (iso now)) in
  try_except
    (write_config (CfgObject state))
    (fun e => print ("Error saving state: " ++ exn_str e)).

Definition load_state : M unit :=
  try_except
    (slot <- gets (fun w => config_file (env w)) ;;
     r <- read_json (content slot) ;;
     match r with
     | None => ret tt
     | Some (CfgOther ty) => raise (AttributeError ty "get")
     | Some (CfgObject state) =>
         modify (with_thr (set_was_logged_in
                   (Some (match sf_is_logged_in state with
                          | Some b => b
                          | None => false
                          end)))) ;;
         match sf_idle_timeout_minutes state with
         | Some n => modify (with_mon (set_idle_timeout_seconds (n * 60)))
         | None => ret tt
         end
     end)
    (fun e =>
       print ("Error loading state: " ++ exn_str e) ;;
       modify (with_thr (set_was_logged_in (Some false)))).

Definition save_log : M unit :=
  try_except
    (l <- gets activity_log ;; write_log l)
    (fun e => print ("Error saving log: " ++ exn_str e)).

Definition load_log : M unit :=
  try_except
    (slot <- gets (fun w => log_file (env w)) ;;
     r <- read_json (content slot) ;;
     match r with
     | None => ret tt
     | Some l => modify (with_log (fun _ => l))
     end)
    (fun e =>
       print ("Error loading log: " ++ exn_str e) ;;
       modify (with_log (fun _ => []))).

(* ================================================================== *)
(** ** The activity log *)

Definition log_activity (now : Instant) (event_type details : string)
  : M unit :=
  let entry := mkEntry (stamp now) event_type details in
  modify (with_log (fun l => (l ++ [entry])%list)) ;;
  l <- gets activity_log ;;
  when (100 <? List.length l)%nat (modify (with_log (lastn 100))) ;;
  save_log.

(* ================================================================== *)
(** ** Activity monitoring *)

Definition update_activity_time (now : Instant) : M unit :=
  modify (with_mon (set_last_activity_time (secs now))).

Definition start_activity_monitoring : M unit :=
  m <- gets mon ;;
  when (negb (mouse_listener m)) (modify (with_mon (set_mouse_listener true))) ;;
  m <- gets mon ;;
  when (negb (keyboard_listener m))
       (modify (with_mon (set_keyboard_listener true))).

Definition stop_activity_monitoring : M unit :=
  m <- gets mon ;;
  when (mouse_listener m) (modify (with_mon (set_mouse_listener false))) ;;
  m <- gets mon ;;
  when (keyboard_listener m) (modify (with_mon (set_keyboard_listener false))).

(* ================================================================== *)
(** ** The session state machine *)

(** [time.time() - self.break_start_time]. *)
Definition since_break_start (now : Instant) : M Z :=
  b <- gets (fun w => break_start_time (sess w)) ;;
  match b with
  | Some t => ret (secs now - t)
  | None =>
      raise (TypeError
        "unsupported operand type(s) for -: 'float' and 'NoneType'")
  end.

(** [if self.clock_in_time: self.total_active_time += time.time() -
    self.clock_in_time]. *)
Definition fold_active (now : Instant) : M unit :=
  s <- gets sess ;;
  match clock_in_time s with
  | Some t =>
      when (truthy_time (Some t))
           (modify (with_sess
              (set_total_active_time (total_active_time s + (secs now - t)))))
  | None => ret tt
  end.

Definition clock_in (now : Instant) : M unit :=
  modify (with_sess (set_is_logged_in true)) ;;
  modify (with_sess (set_clock_in_time (Some (secs now)))) ;;
  modify (with_mon (set_last_activity_time (secs now))) ;;
  modify (with_sess (set_total_active_time 0)) ;;
  modify (with_sess (set_total_break_time 0)) ;;
  start_activity_monitoring ;;
  t <- gets thr ;;
  when (negb (idle_checker_thread t))
       (modify (with_thr (set_idle_checker_thread true))) ;;
  t <- gets thr ;;
  when (negb (ui_updater_thread t))
       (modify (with_thr (set_ui_updater_thread true))) ;;
  log_activity now "CLOCK_IN" "Started work session" ;;
  save_state now.

Definition resume_work (now : Instant) : M unit :=
  s <- gets sess ;;
  if is_on_break s then
    break_duration <- since_break_start now ;;
    modify (with_sess (fun s =>
      set_total_break_time (total_break_time s + break_duration) s)) ;;
    modify (with_sess (set_is_on_break false)) ;;
    modify (with_sess (set_clock_in_time (Some (secs now)))) ;;
    modify (with_mon (set_last_activity_time (secs now))) ;;
    log_activity now "BREAK_END"
      ("Resumed work (break: " ++ str_int (minutes break_duration) ++ "m)") ;;
    save_state now
  else ret tt.

Definition take_break (now : Instant) : M unit :=
  s <- gets sess ;;
  if negb (is_on_break s) then
    modify (with_sess (set_is_on_break true)) ;;
    modify (with_sess (set_break_start_time (Some (secs now)))) ;;
    fold_active now ;;
    log_activity now "BREAK_START" "Started break" ;;
    save_state now
  else resume_work now.

(** The block "Calculate final times" of [clock_out]: the period that is
    open, break or active, is added to its accumulator. *)
Definition fold_open_period (now : Instant) : M unit :=
  s <- gets sess ;;
  if is_on_break s then
    break_duration <- since_break_start now ;;
    modify (with_sess (fun s =>
      set_total_break_time (total_break_time s + break_duration) s))
  else fold_active now.

Definition clock_out (auto : bool) (reason : string) (now : Instant)
  : M unit :=
  s <- gets sess ;;
  if negb (is_logged_in s) then ret tt
  else
    fold_open_period now ;;
    modify (with_sess (set_is_logged_in false)) ;;
    modify (with_sess (set_is_on_break false)) ;;
    stop_activity_monitoring ;;
    s <- gets sess ;;
    let active_str := timedelta_str (total_active_time s) in
    let break_str := timedelta_str (total_break_time s) in
    log_activity now "CLOCK_OUT"
      (reason ++ " | Active: " ++ active_str ++ " | Breaks: " ++ break_str) ;;
    modify (with_sess (set_clock_in_time None)) ;;
    modify (with_sess (set_total_active_time 0)) ;;
    modify (with_sess (set_total_break_time 0)) ;;
    save_state now ;;
    when auto
      (show (ShowWarning "Auto Clock Out"
               ("You have been automatically clocked out due to: " ++ reason))).

(** The default arguments of [clock_out]. *)
Definition manual_reason : string := "Manual clock out".

(* ================================================================== *)
(** ** Periodic checks *)

(** One iteration of the loop of [check_idle_status] (the body between the
    test of [self.running] and the sleep). *)
Definition check_idle_tick (now : Instant) : M unit :=
  s <- gets sess ;;
  when (is_logged_in s && negb (is_on_break s))
    (m <- gets mon ;;
     let current_idle_time := secs now - last_activity_time m in
     when (idle_timeout_seconds m <? current_idle_time)%Z
       (log_activity now "IDLE_TIMEOUT"
          ("Idle for " ++ str_int (minutes current_idle_time) ++ " minutes") ;;
        clock_out true "Idle timeout" now)).

(** Reading [self.last_check_time]. *)
Definition get_last_check_time : M Z :=
  t <- gets thr ;;
  match last_check_time t with
  | Some v => ret v
  | None => raise (AttributeError "ProductivityTracker" "last_check_time")
  end.

(** One iteration of the loop of [detect_sleep_by_time_gap]. *)
Definition detect_sleep_tick (now : Instant) : M unit :=
  let current_time := secs now in
  last <- get_last_check_time ;;
  let time_gap := current_time - last in
  when (120 <? time_gap)%Z
    (log_activity now "SYSTEM_RESUME"
       ("Detected system wake (gap: " ++ str_int (minutes time_gap) ++ "m)") ;;
     s <- gets sess ;;
     when (is_logged_in s)
       (clock_out true
          ("System was sleeping (" ++ str_int (minutes time_gap) ++ " minutes)")
          now ;;
        root_after 2000 CbPromptClockIn)) ;;
  modify (with_thr (set_last_check_time (Some current_time))).

(** [answer] is what the user replies to the question, if it is asked. *)
Definition prompt_clock_in_after_resume (answer : bool) (now : Instant)
  : M unit :=
  s <- gets sess ;;
  when (negb (is_logged_in s))
    (show (AskYesNo "System Resumed"
             ("Your system just resumed from sleep/shutdown." ++ nl ++ nl
              ++ "Would you like to clock in now?")
             answer) ;;
     when answer (clock_in now)).

(* ================================================================== *)
(** ** Start-up, settings and shutdown *)

Definition update_settings (now : Instant) : M unit :=
  m <- gets mon ;;
  modify (with_mon (set_idle_timeout_seconds (idle_timeout_var m * 60))) ;;
  save_state now.

Definition check_unexpected_shutdown (now : Instant) : M unit :=
  t <- gets thr ;;
  when (match _was_logged_in t with Some b => b | None => false end)
    (log_activity now "UNEXPECTED_SHUTDOWN"
       "Detected unexpected shutdown - auto-clocking in" ;;
     show (ShowInfo "Welcome Back"
             "Detected previous session was interrupted. Auto-clocking you in.") ;;
     root_after 1000 CbClockIn).

(** What [setup_ui] does to the modelled attributes: it creates the
    IntVar with value 5. *)
Definition setup_ui : M unit :=
  modify (with_mon (set_idle_timeout_var 5)).

(** The attribute assignments at the top of [__init__], over a given
    environment.  [idle_timeout_var] does not exist before [setup_ui] and
    nothing reads it earlier; it is given the value [setup_ui] creates it
    with.  [last_check_time] is assigned nowhere in [__init__]. *)
Definition fresh (now : Instant) (e : Env) : World :=
  mkWorld (mkSession false false None None 0 0)
          (mkMonitor (secs now) 300 5 false false)
          (mkThreads true false false false None None)
          []
          e.

Definition init (now : Instant) : M unit :=
  load_state ;;
  setup_ui ;;
  check_unexpected_shutdown now.

(** [app = ProductivityTracker(); app.run()] up to the entry of the main
    loop. *)
Definition boot (now : Instant) (e : Env) : Outcome unit :=
  (init now ;; load_log) (fresh now e).

Definition cleanup_and_exit : M unit :=
  modify (with_thr (set_running false)) ;;
  stop_activity_monitoring.

(** [ok] is the user's reply to the confirmation, if it is asked. *)
Definition on_closing (ok : bool) (now : Instant) : M unit :=
  s <- gets sess ;;
  if is_logged_in s then
    show (AskOkCancel "Quit"
            "You are still clocked in. Do you want to clock out and quit?" ok) ;;
    when ok (clock_out false "Application closed" now ;; cleanup_and_exit)
  else cleanup_and_exit.

(** The host on which [setup_system_event_handlers] runs, with the outcome
    of the platform set-up as far as it shows in the log.  The native
    callbacks the set-up registers are not part of this development. *)
Inductive DbusSetup := DbusOk | DbusImportError | DbusError (msg : string).

Inductive Platform :=
| Windows (advanced : bool) (failure : option string)
| Darwin (pyobjc : bool)
| Linux (dbus : DbusSetup)
| OtherSystem.

Definition setup_windows_handlers (advanced : bool) (failure : option string)
  (now : Instant) : M unit :=
  if negb advanced then ret tt
  else match failure with
       | None => log_activity now "SYSTEM_INIT"
                   "Windows system event monitoring enabled"
       | Some e => log_activity now "SYSTEM_INIT"
                     ("Windows handler setup failed: " ++ e)
       end.

Definition setup_macos_handlers (pyobjc : bool) (now : Instant) : M unit :=
  if pyobjc
  then log_activity now "SYSTEM_INIT" "macOS system event monitoring enabled"
  else log_activity now "SYSTEM_INIT"
         "macOS PyObjC not available, using time-gap detection".

Definition setup_linux_handlers (dbus : DbusSetup) (now : Instant) : M unit :=
  match dbus with
  | DbusOk => log_activity now "SYSTEM_INIT"
                "Linux D-Bus system event monitoring enabled"
  | DbusImportError => log_activity now "SYSTEM_INIT"
                         "D-Bus not available, using time-gap detection"
  | DbusError e => log_activity now "SYSTEM_INIT"
                     ("Linux handler setup: " ++ e)
  end.

Definition setup_system_event_handlers (system : Platform) (now : Instant)
  : M unit :=
  match system with
  | Windows advanced failure => setup_windows_handlers advanced failure now
  | Darwin pyobjc => setup_macos_handlers pyobjc now
  | Linux dbus => setup_linux_handlers dbus now
  | OtherSystem => ret tt
  end ;;
  modify (with_thr (set_sleep_detector_thread true)).

(* ================================================================== *)
(** ** Runs of the program *)

(** What can happen once the main loop is entered: the three buttons, the
    spinbox, the window's close box, an input event seen by the listeners,
    a due [root.after] callback, and an iteration of either polling
    thread. *)
Inductive Event :=
| EvClockInBtn (now : Instant)
| EvBreakBtn (now : Instant)
| EvClockOutBtn (now : Instant)
| EvSpinbox (value : Z) (now : Instant)
| EvClose (ok : bool) (now : Instant)
| EvInput (now : Instant)
| EvAfter (k : nat) (answer : bool) (now : Instant)
| EvIdleTick (now : Instant)
| EvGapTick (now : Instant).

Definition run_callback (cb : Callback) (answer : bool) (now : Instant)
  : M unit :=
  match cb with
  | CbClockIn => clock_in now
  | CbPromptClockIn => prompt_clock_in_after_resume answer now
  end.

(** Removal of the [k]-th element. *)
Fixpoint remove_nth {A} (k : nat) (l : list A) : list A :=
  match l, k with
  | [], _ => []
  | _ :: l', O => l'
  | x :: l', S k' => x :: remove_nth k' l'
  end.

(** An event happens only while the process is running; a listener
    callback needs a started listener, a thread iteration a live thread,
    and an [after] callback must be pending.  Button states are not
    modelled, so a button may be pressed in any state: the runs of the
    program are among the runs described here. *)
Definition enabled (ev : Event) (w : World) : bool :=
  running (thr w) &&
  match ev with
  | EvInput _ => mouse_listener (mon w) || keyboard_listener (mon w)
  | EvAfter k _ _ =>
      match nth_error (after_queue (env w)) k with
      | Some _ => true
      | None => false
      end
  | EvIdleTick _ => idle_checker_thread (thr w)
  | EvGapTick _ => sleep_detector_thread (thr w)
  | _ => true
  end.

Definition handle (ev : Event) : M unit :=
  match ev with
  | EvClockInBtn now => clock_in now
  | EvBreakBtn now => take_break now
  | EvClockOutBtn now => clock_out false manual_reason now
  | EvSpinbox v now =>
      modify (with_mon (set_idle_timeout_var v)) ;; update_settings now
  | EvClose ok now => on_closing ok now
  | EvInput now => update_activity_time now
  | EvAfter k answer now =>
      q <- gets (fun w => after_queue (env w)) ;;
      match nth_error q k with
      | Some (_, cb) =>
          modify (with_env (set_after_queue (remove_nth k q))) ;;
          run_callback cb answer now
      | None => ret tt
      end
  | EvIdleTick now => check_idle_tick now
  | EvGapTick now => detect_sleep_tick now
  end.

(** An exception raised in a thread ends that thread; one raised in a Tk
    callback is reported and the loop goes on. *)
Definition after_raise (ev : Event) (w : World) : World :=
  match ev with
  | EvIdleTick _ => with_thr (set_idle_checker_thread false) w
  | EvGapTick _ => with_thr (set_sleep_detector_thread false) w
  | _ => w
  end.

Definition step (ev : Event) (w : World) : World :=
  if enabled ev w then
    match handle ev w with
    | Returns _ w' => w'
    | Raises _ w' => after_raise ev w'
    end
  else w.

Definition run_events (evs : list Event) (w : World) : World :=
  fold_left (fun w ev => step ev w) evs w.

(** The four entry points of the state machine, called directly. *)
Inductive Op :=
| OpClockIn
| OpStartBreak
| OpResumeWork
| OpClockOut (auto : bool) (reason : string).

Definition do_op (o : Op) (now : Instant) : M unit :=
  match o with
  | OpClockIn => clock_in now
  | OpStartBreak => take_break now
  | OpResumeWork => resume_work now
  | OpClockOut auto reason => clock_out auto reason now
  end.

Fixpoint do_ops (l : list (Op * Instant)) : M unit :=
  match l with
  | [] => ret tt
  | (o, now) :: l' => do_op o now ;; do_ops l'
  end.

(* ================================================================== *)
(** ** Predicates and fixtures of the properties *)

(** Saving touches the two files and the console only. *)
Definition same_but_files (w w' : World) : Prop :=
  sess w' = sess w /\ mon w' = mon w /\ thr w' = thr w /\
  activity_log w' = activity_log w /\
  dialogs (env w') = dialogs (env w) /\
  after_queue (env w') = after_queue (env w).

(** What [save_state] leaves behind, by the outcome of opening the file. *)
Definition saved_state (now : Instant) (w w' : World) : Prop :=
  match write_error (config_file (env w)) with
  | None =>
      config_file (env w') =
        mkSlot (Holds (CfgObject
                  (mkStateFile (Some (is_logged_in (sess w)))
                               (Some (is_on_break (sess w)))
                               (Some (idle_timeout_var (mon w)))
                               (Some (iso now)))))
               None
      /\ console (env w') = console (env w)
  | Some m =>
      config_file (env w') = config_file (env w)
      /\ console (env w') = (console (env w) ++ [("Error saving state: " ++ m)%string])%list
  end /\ log_file (env w') = log_file (env w).

Definition saved_log (w w' : World) : Prop :=
  match write_error (log_file (env w)) with
  | None =>
      log_file (env w') = mkSlot (Holds (activity_log w)) None
      /\ console (env w') = console (env w)
  | Some m =>
      log_file (env w') = log_file (env w)
      /\ console (env w') = (console (env w) ++ [("Error saving log: " ++ m)%string])%list
  end /\ config_file (env w') = config_file (env w).

(** What [load_state] does, by what the configuration file holds. *)
Definition loaded_state (w w' : World) : Prop :=
  match content (config_file (env w)) with
  | Missing => w' = w
  | Holds (CfgObject o) =>
      _was_logged_in (thr w') =
        Some (match sf_is_logged_in o with Some b => b | None => false end)
      /\ idle_timeout_seconds (mon w') =
           match sf_idle_timeout_minutes o with
           | Some n => n * 60
           | None => idle_timeout_seconds (mon w)
           end
      /\ env w' = env w
  | Unreadable m | Undecodable m =>
      _was_logged_in (thr w') = Some false
      /\ mon w' = mon w
      /\ console (env w') = (console (env w) ++ [("Error loading state: " ++ m)%string])%list
  | Holds (CfgOther ty) =>
      _was_logged_in (thr w') = Some false
      /\ mon w' = mon w
      /\ console (env w') =
           (console (env w) ++
            [("Error loading state: '" ++ ty
              ++ "' object has no attribute 'get'")%string])%list
  end.

(** What [load_log] does, by what the log file holds. *)
Definition loaded_log (w w' : World) : Prop :=
  match content (log_file (env w)) with
  | Missing => w' = w
  | Holds l => activity_log w' = l /\ env w' = env w
  | Unreadable m | Undecodable m =>
      activity_log w' = []
      /\ console (env w') = (console (env w) ++ [("Error loading log: " ++ m)%string])%list
  end.

(** The world in which [log_activity] calls [save_log]. *)
Definition appended (now : Instant) (ev d : string) (w : World) : World :=
  with_log (fun l => lastn 100 (l ++ [mkEntry (stamp now) ev d])) w.

(** A batch of calls of [log_activity]. *)
Definition LogCall : Type := Instant * string * string.

Definition entry_of (c : LogCall) : LogEntry :=
  let '(now, ev, d) := c in mkEntry (stamp now) ev d.

Fixpoint log_all (calls : list LogCall) : M unit :=
  match calls with
  | [] => ret tt
  | (now, ev, d) :: calls' => log_activity now ev d ;; log_all calls'
  end.

(** Fixtures for the concrete runs below: an instant at a given second and
    a machine without either file. *)
Definition at_secs (t : Z) : Instant :=
  mkInstant t ("day " ++ str_int t) ("iso " ++ str_int t).

Definition no_files : Env :=
  mkEnv (mkSlot Missing None) (mkSlot Missing None) [] [] [].

Definition started : World := world_of (boot (at_secs 1) no_files).

(** A machine whose configuration file says the last run ended while
    logged in. *)
Definition interrupted : Env :=
  mkEnv (mkSlot (Holds (CfgObject
                   (mkStateFile (Some true) (Some false) (Some 5)
                                (Some "iso 0"))))
                None)
        (mkSlot Missing None) [] [] [].

(** The world of a session that was clocked in at second 1000, the same
    session on break since second 1100, and back at work at second 1400. *)
Definition working : World := world_of (clock_in (at_secs 1000) started).
Definition pausing : World := world_of (take_break (at_secs 1100) working).
Definition resumed : World := world_of (resume_work (at_secs 1400) pausing).

(** The [k]-th call of a numbered batch of appends. *)
Definition numbered (k : nat) : LogCall :=
  (at_secs (Z.of_nat k), "TICK", str_int (Z.of_nat k)).

Definition clock_out_calls (args : list (bool * string * Instant))
  : list (Op * Instant) :=
  map (fun '(auto, reason, now) => (OpClockOut auto reason, now)) args.



(** The run of the specification's scenario, at the seconds it names. *)
Definition scenario_at_zero : list (Op * Instant) :=
  [(OpClockIn, at_secs 0); (OpStartBreak, at_secs 100);
   (OpResumeWork, at_secs 400); (OpClockOut false manual_reason, at_secs 500)].

(** [preserves proj c]: whatever its outcome, [c] ends in a world with
    the same [proj]. *)
Definition preserves {X A} (proj : World -> X) (c : M A) : Prop :=
  forall w, proj (world_of (c w)) = proj w.

(** [never_raises c]: [c] returns in every world. *)
Definition never_raises {A} (c : M A) : Prop :=
  forall w, exists a w', c w = Returns a w'.

(** The two attributes the gap detector depends on. *)
Definition detector (w : World) : bool * option Z :=
  (sleep_detector_thread (thr w), last_check_time (thr w)).

(** A logged-in session has its clock-in time, a break in progress its
    start. *)
Definition times_recorded (w : World) : Prop :=
  (is_logged_in (sess w) = true -> clock_in_time (sess w) <> None) /\
  (is_on_break (sess w) = true -> break_start_time (sess w) <> None).

Definition idle_warning : Dialog :=
  ShowWarning "Auto Clock Out"
    "You have been automatically clocked out due to: Idle timeout".

(* ================================================================== *)
(** ** Further fixtures: restarts *)

(** The environment the next process finds: the two files as the last
    process left them, and nothing printed, shown or scheduled yet. *)
Definition restart (e : Env) : Env :=
  mkEnv (config_file e) (log_file e) [] [] [].

(** The dict [save_state] dumps. *)
Definition snapshot (now : Instant) (w : World) : StateFile :=
  mkStateFile (Some (is_logged_in (sess w))) (Some (is_on_break (sess w)))
              (Some (idle_timeout_var (mon w))) (Some (iso now)).

(** Whether the configuration file makes [check_unexpected_shutdown] act:
    it parses to an object whose [is_logged_in] is true. *)
Definition flagged (e : Env) : bool :=
  match content (config_file e) with
  | Holds (CfgObject o) =>
      match sf_is_logged_in o with Some b => b | None => false end
  | _ => false
  end.

Definition shutdown_entry (now : Instant) : LogEntry :=
  mkEntry (stamp now) "UNEXPECTED_SHUTDOWN"
          "Detected unexpected shutdown - auto-clocking in".

Definition welcome_back : Dialog :=
  ShowInfo "Welcome Back"
    "Detected previous session was interrupted. Auto-clocking you in.".

(** What [load_log] makes of the log file, over the log in memory. *)
Definition log_on_disk {A} (in_memory : list A) (r : FileRead (list A))
  : list A :=
  match r with
  | Missing => in_memory
  | Holds l => l
  | Unreadable _ | Undecodable _ => []
  end.

(* ================================================================== *)
(** ** Further predicates: what holds throughout a run *)

(** Input is listened to exactly while the session is logged in. *)
Definition monitored (w : World) : Prop :=
  mouse_listener (mon w) = is_logged_in (sess w) /\
  keyboard_listener (mon w) = is_logged_in (sess w).

(** A logged-in session has a live idle-check thread. *)
Definition watched (w : World) : Prop :=
  is_logged_in (sess w) = true -> idle_checker_thread (thr w) = true.

Definition sound (w : World) : Prop :=
  times_recorded w /\ monitored w /\ watched w.

(** [safe c]: from a sound world [c] returns, in a sound world. *)
Definition safe {A} (c : M A) : Prop :=
  forall w, sound w -> exists a w', c w = Returns a w' /\ sound w'.

Definition quit_question (ok : bool) : Dialog :=
  AskOkCancel "Quit"
    "You are still clocked in. Do you want to clock out and quit?" ok.

(* ================================================================== *)
(** ** The displays *)

(** The three labels [update_time_displays] writes. *)
Record Labels := mkLabels {
  active_time_label   : string;
  idle_time_label     : string;
  last_activity_label : string
}.

(** [update_time_displays]: the label of the active time is rewritten
    only when [self.clock_in_time] is a true value; [int] of a number of
    whole seconds is the number itself, and [//] is floor division. *)
Definition update_time_displays (now : Instant) (w : World) (ui : Labels)
  : Labels :=
  let active_label :=
    match clock_in_time (sess w) with
    | Some c =>
        if truthy_time (Some c) then
          let active :=
            if is_on_break (sess w) then total_active_time (sess w)
            else total_active_time (sess w) + (secs now - c) in
          "Active: " ++ timedelta_str active
        else active_time_label ui
    | None => active_time_label ui
    end in
  let idle_seconds := secs now - last_activity_time (mon w) in
  mkLabels active_label
           ("Idle: " ++ timedelta_str idle_seconds)
           (if (idle_seconds <? 60)%Z
            then "Last activity: " ++ str_int idle_seconds ++ "s ago"
            else "Last activity: " ++ str_int (idle_seconds / 60) ++ "m ago").

(** A line of the log text box. *)
Definition log_line (e : LogEntry) : string :=
  "[" ++ timestamp e ++ "] " ++ event e ++ ": " ++ details e ++ nl.

(** [refresh_log_display]: the lines of the text box after it was emptied
    and refilled, top line first. *)
Definition refresh_log_display (l : list LogEntry) : list string :=
  map log_line (rev (lastn 20 l)).

(* ================================================================== *)
(** ** The native sleep and shutdown callbacks *)




(** The constants of [win32con] and [win32ts] the Windows handler compares
    its arguments with. *)
Record Win32 := mkWin32 {
  WM_QUERYENDSESSION : Z;
  WM_ENDSESSION      : Z;
  WM_POWERBROADCAST  : Z;
  WTS_SESSION_LOCK   : Z;
  WTS_SESSION_UNLOCK : Z
}.

(** What the handler returns: [True], [0], or what [DefWindowProc] makes
    of the message. *)
Inductive WinResult := WinTrue | WinZero | WinDefWindowProc.

(** The [try] block of [windows_message_handler]; [None] when it is left
    without a [return].  The assignment to [shutdown_initiated] is in
    [shutdown_initiated_after]. *)
Definition windows_message_body (c : Win32) (msg wparam : Z) (now : Instant)
  : M (option WinResult) :=
  if (msg =? WM_QUERYENDSESSION c)%Z then
    log_activity now "SHUTDOWN_WARNING" "System shutdown/logoff initiated" ;;
    s <- gets sess ;;
    when (is_logged_in s) (clock_out true "System shutdown detected" now) ;;
    ret (Some WinTrue)
  else if (msg =? WM_ENDSESSION c)%Z then
    log_activity now "SHUTDOWN_CONFIRMED" "System shutdown confirmed" ;;
    save_state now ;;
    ret (Some WinZero)
  else if (msg =? WM_POWERBROADCAST c)%Z then
    (if (wparam =? 4)%Z then                      (* PBT_APMSUSPEND *)
       log_activity now "SYSTEM_SUSPEND" "System entering sleep mode" ;;
       s <- gets sess ;;
       when (is_logged_in s) (clock_out true "System sleep detected" now)
     else if (wparam =? 18)%Z then                (* PBT_APMRESUMEAUTOMATIC *)
       log_activity now "SYSTEM_RESUME" "System resumed from sleep" ;;
       s <- gets sess ;;
       when (negb (is_logged_in s)) (root_after 2000 CbPromptClockIn)
     else ret tt) ;;
    ret (Some WinTrue)
  else if (msg =? 689)%Z then                     (* WM_WTSSESSION_CHANGE *)
    (if (wparam =? WTS_SESSION_LOCK c)%Z then
       log_activity now "SESSION_LOCK" "Workstation locked"
     else if (wparam =? WTS_SESSION_UNLOCK c)%Z then
       log_activity now "SESSION_UNLOCK" "Workstation unlocked" ;;
       modify (with_mon (set_last_activity_time (secs now)))
     else ret tt) ;;
    ret (Some WinZero)
  else ret None.

Definition windows_message_handler (c : Win32) (msg wparam : Z)
  (now : Instant) : M WinResult :=
  r <- try_except (windows_message_body c msg wparam now)
         (fun e => print ("Error in message handler: " ++ exn_str e) ;;
                   ret None) ;;
  match r with
  | Some v => ret v
  | None => ret WinDefWindowProc
  end.

(** The attribute [shutdown_initiated], which only this handler assigns
    and nothing reads: its value after a message, from its value before
    ([None]: the attribute is missing).  The assignment is the first
    statement of its branch. *)
Definition shutdown_initiated_after (c : Win32) (msg : Z)
  (before : option bool) : option bool :=
  if (msg =? WM_QUERYENDSESSION c)%Z then before
  else if (msg =? WM_ENDSESSION c)%Z then Some true
  else before.





(** The values the constants have in pywin32. *)
Definition pywin32 : Win32 := mkWin32 17 22 536 7 8.


(* ================================================================== *)
(** ** Further fixtures: the gap detector with a recorded last check *)



(* ================================================================== *)
(** ** The clock read call by call *)

(** In the methods above each call sees one clock reading, in whole
    seconds.  Here the four transitions are given every value of
    [time.time()] they read, one by one in the order of the reads, and a
    reading is a whole number of clock ticks, [hz] ticks to the second, so
    that it need not be a whole number of seconds.  The time attributes of
    a world of this part are in ticks; differences and sums of readings
    are exact.  (The floats [time.time()] returns from 2004 to 2038 lie
    between [2^30] and [2^31] and are the whole multiples of [2^-22]
    there; their differences and the sums of these are computed without
    rounding, so that [hz = 2^22] gives the values the program computes.)
    The [Instant] a call receives only supplies the dates that
    [log_activity] and [save_state] print. *)
Definition Readings : Type := nat -> Z.

(** An instant whose clock reading is [t]. *)
Definition at_reading (now : Instant) (t : Z) : Instant :=
  mkInstant t (stamp now) (iso now).

(** [int(x)] and [int(x / 60)] for a duration of [x] ticks. *)
Definition whole_seconds (hz x : Z) : Z := Z.quot x hz.
Definition whole_minutes (hz x : Z) : Z := Z.quot x (60 * hz).

Module Ticks.

(** Reads: [clock_in_time] (first), [last_activity_time] (second). *)
Definition clock_in (now : Instant) (rd : Readings) : M unit :=
  modify (with_sess (set_is_logged_in true)) ;;
  modify (with_sess (set_clock_in_time (Some (rd 0%nat)))) ;;
  modify (with_mon (set_last_activity_time (rd 1%nat))) ;;
  modify (with_sess (set_total_active_time 0)) ;;
  modify (with_sess (set_total_break_time 0)) ;;
  start_activity_monitoring ;;
  t <- gets thr ;;
  when (negb (idle_checker_thread t))
       (modify (with_thr (set_idle_checker_thread true))) ;;
  t <- gets thr ;;
  when (negb (ui_updater_thread t))
       (modify (with_thr (set_ui_updater_thread true))) ;;
  log_activity now "CLOCK_IN" "Started work session" ;;
  save_state now.

(** Reads: the end of the break (first), [clock_in_time] (second),
    [last_activity_time] (third). *)
Definition resume_work (hz : Z) (now : Instant) (rd : Readings) : M unit :=
  s <- gets sess ;;
  if is_on_break s then
    break_duration <- since_break_start (at_reading now (rd 0%nat)) ;;
    modify (with_sess (fun s =>
      set_total_break_time (total_break_time s + break_duration) s)) ;;
    modify (with_sess (set_is_on_break false)) ;;
    modify (with_sess (set_clock_in_time (Some (rd 1%nat)))) ;;
    modify (with_mon (set_last_activity_time (rd 2%nat))) ;;
    log_activity now "BREAK_END"
      ("Resumed work (break: "
       ++ str_int (whole_minutes hz break_duration) ++ "m)") ;;
    save_state now
  else ret tt.

(** Reads: [break_start_time] (first), the end of the active period
    (second, made when [clock_in_time] is a true value); in the other
    branch, the reads of [resume_work]. *)
Definition take_break (hz : Z) (now : Instant) (rd : Readings) : M unit :=
  s <- gets sess ;;
  if negb (is_on_break s) then
    modify (with_sess (set_is_on_break true)) ;;
    modify (with_sess (set_break_start_time (Some (rd 0%nat)))) ;;
    fold_active (at_reading now (rd 1%nat)) ;;
    log_activity now "BREAK_START" "Started break" ;;
    save_state now
  else resume_work hz now rd.

(** Reads: the end of the open period (the only read; none is made when
    the session is not on break and [clock_in_time] is a false value).
    The summary prints [int] of each total. *)
Definition clock_out (hz : Z) (auto : bool) (reason : string)
  (now : Instant) (rd : Readings) : M unit :=
  s <- gets sess ;;
  if negb (is_logged_in s) then ret tt
  else
    fold_open_period (at_reading now (rd 0%nat)) ;;
    modify (with_sess (set_is_logged_in false)) ;;
    modify (with_sess (set_is_on_break false)) ;;
    stop_activity_monitoring ;;
    s <- gets sess ;;
    let active_str :=
      timedelta_str (whole_seconds hz (total_active_time s)) in
    let break_str :=
      timedelta_str (whole_seconds hz (total_break_time s)) in
    log_activity now "CLOCK_OUT"
      (reason ++ " | Active: " ++ active_str ++ " | Breaks: " ++ break_str) ;;
    modify (with_sess (set_clock_in_time None)) ;;
    modify (with_sess (set_total_active_time 0)) ;;
    modify (with_sess (set_total_break_time 0)) ;;
    save_state now ;;
    when auto
      (show (ShowWarning "Auto Clock Out"
               ("You have been automatically clocked out due to: " ++ reason))).




End Ticks.

(* ------------------------------------------------------------------ *)
(** *** The time of a session, measured on the readings *)












(** Readings for the fixtures: a call that reads [t] each time, and a
    call whose reads are [d] ticks apart, the first being [t]. *)
Definition reading (t : Z) : Readings := fun _ => t.




(* ================================================================== *)
(** * Properties *)

(** ** Sequencing *)

Lemma bind_returns {A B} (c : M A) (k : A -> M B) w a w1 :
  c w = Returns a w1 -> bind c k w = k a w1.
Proof. intros H. unfold bind. now rewrite H. Qed.

Lemma bind_raises {A B} (c : M A) (k : A -> M B) w e w1 :
  c w = Raises e w1 -> bind c k w = Raises e w1.
Proof. intros H. unfold bind. now rewrite H. Qed.

Lemma bind_ext {A B} (c : M A) (k1 k2 : A -> M B) w :
  (forall a w', k1 a w' = k2 a w') -> bind c k1 w = bind c k2 w.
Proof. intros H. unfold bind. destruct (c w); [apply H|reflexivity]. Qed.

(** ** Formatting *)

Example timedelta_str_minutes : timedelta_str 200 = "0:03:20".
Proof. reflexivity. Qed.

Example timedelta_str_one_day : timedelta_str 90061 = "1 day, 1:01:01".
Proof. reflexivity. Qed.

Example timedelta_str_two_days : timedelta_str 172800 = "2 days, 0:00:00".
Proof. reflexivity. Qed.

Example timedelta_str_negative : timedelta_str (-1) = "-1 day, 23:59:59".
Proof. reflexivity. Qed.

Example minutes_truncates : minutes 200 = 3 /\ minutes (-30) = 0.
Proof. split; reflexivity. Qed.

(** ** The last elements of a list *)

Lemma lastn_length {A} n (l : list A) :
  List.length (lastn n l) = Nat.min n (List.length l).
Proof. unfold lastn. rewrite length_skipn. lia. Qed.

Lemma lastn_all {A} n (l : list A) :
  (List.length l <= n)%nat -> lastn n l = l.
Proof.
  intros H. unfold lastn.
  replace (List.length l - n)%nat with 0%nat by lia. reflexivity.
Qed.

Lemma lastn_app_r {A} n (l1 l2 : list A) :
  (n <= List.length l2)%nat -> lastn n (l1 ++ l2) = lastn n l2.
Proof.
  intros H. unfold lastn. rewrite skipn_app, length_app.
  replace (List.length l1 + List.length l2 - n - List.length l1)%nat
    with (List.length l2 - n)%nat by lia.
  rewrite skipn_all2 by lia. reflexivity.
Qed.

(** Trimming before an append changes nothing once the result is trimmed
    again. *)
Lemma lastn_lastn_snoc {A} n (l : list A) x :
  (0 < n)%nat -> lastn n (lastn n l ++ [x]) = lastn n (l ++ [x]).
Proof.
  intros Hn. unfold lastn.
  rewrite !skipn_app, !length_app, length_skipn. cbn [List.length].
  destruct (Nat.le_gt_cases (List.length l) n) as [Hle | Hgt].
  - replace (List.length l - n)%nat with 0%nat by lia.
    cbn [skipn]. rewrite Nat.sub_0_r. reflexivity.
  - rewrite skipn_skipn.
    replace (List.length l - (List.length l - n) + 1 - n)%nat
      with 1%nat by lia.
    replace (1 - (List.length l - (List.length l - n)))%nat
      with 0%nat by lia.
    replace (List.length l + 1 - n - List.length l)%nat with 0%nat by lia.
    f_equal. f_equal. lia.
Qed.

Lemma lastn_lastn_app {A} n (l es : list A) :
  (0 < n)%nat -> lastn n (lastn n l ++ es) = lastn n (l ++ es).
Proof.
  intros Hn. induction es as [|x es IH] using rev_ind.
  - rewrite !app_nil_r. apply lastn_all. rewrite lastn_length. lia.
  - rewrite !app_assoc.
    rewrite <- (lastn_lastn_snoc n (lastn n l ++ es)) by exact Hn.
    rewrite IH. apply lastn_lastn_snoc. exact Hn.
Qed.

Lemma lastn_snoc_last {A} n (l : list A) x d :
  (0 < n)%nat -> last (lastn n (l ++ [x])) d = x.
Proof.
  intros Hn. unfold lastn. rewrite skipn_app, length_app. cbn [List.length].
  replace (List.length l + 1 - n - List.length l)%nat with 0%nat by lia.
  cbn [skipn]. apply last_last.
Qed.

(** ** Persistence *)

Lemma same_but_files_refl w : same_but_files w w.
Proof. repeat split. Qed.

Lemma same_but_files_trans w1 w2 w3 :
  same_but_files w1 w2 -> same_but_files w2 w3 -> same_but_files w1 w3.
Proof.
  unfold same_but_files.
  intros (?&?&?&?&?&?) (?&?&?&?&?&?). repeat split; congruence.
Qed.

Lemma save_state_returns now w :
  exists w', save_state now w = Returns tt w'
             /\ same_but_files w w' /\ saved_state now w w'.
Proof.
  unfold save_state, saved_state, try_except, write_config, bind, gets.
  destruct (write_error (config_file (env w))) as [m|] eqn:E;
    cbn; eexists; (split; [reflexivity|]); cbn; rewrite ?E;
    repeat split; reflexivity.
Qed.

Lemma save_log_returns w :
  exists w', save_log w = Returns tt w'
             /\ same_but_files w w' /\ saved_log w w'.
Proof.
  unfold save_log, saved_log, try_except, write_log, bind, gets.
  destruct (write_error (log_file (env w))) as [m|] eqn:E;
    cbn; eexists; (split; [reflexivity|]); cbn; rewrite ?E;
    repeat split; reflexivity.
Qed.

Lemma load_state_returns w :
  exists w', load_state w = Returns tt w'
             /\ sess w' = sess w /\ activity_log w' = activity_log w
             /\ last_check_time (thr w') = last_check_time (thr w)
             /\ sleep_detector_thread (thr w') = sleep_detector_thread (thr w)
             /\ running (thr w') = running (thr w)
             /\ loaded_state w w'.
Proof.
  unfold load_state, loaded_state, try_except, read_json, bind, gets.
  destruct w as [s m t l e]; cbn.
  destruct (content (config_file e)) as [|msg|msg|[o|ty]]; cbn;
    try (destruct (sf_idle_timeout_minutes o)); cbn;
    eexists; (split; [reflexivity|]); cbn; repeat split; reflexivity.
Qed.

Lemma load_log_returns w :
  exists w', load_log w = Returns tt w'
             /\ sess w' = sess w /\ mon w' = mon w /\ thr w' = thr w
             /\ loaded_log w w'.
Proof.
  unfold load_log, loaded_log, try_except, read_json, bind, gets.
  destruct w as [s m t l e]; cbn.
  destruct (content (log_file e)) as [|msg|msg|l']; cbn;
    eexists; (split; [reflexivity|]); cbn; repeat split; reflexivity.
Qed.

(** C9. Each of [save_state], [load_state], [save_log] and [load_log]
    returns normally in every world, whatever the state of its file: a
    failed write leaves the tracker as it was and prints one line, a
    failed read prints one line and falls back to the default
    ([_was_logged_in = False], an empty log), and a missing file changes
    nothing. *)
Theorem persistence_never_raises : forall (now : Instant) (w : World),
  (exists w', save_state now w = Returns tt w'
              /\ same_but_files w w' /\ saved_state now w w') /\
  (exists w', load_state w = Returns tt w'
              /\ sess w' = sess w /\ activity_log w' = activity_log w
              /\ loaded_state w w') /\
  (exists w', save_log w = Returns tt w'
              /\ same_but_files w w' /\ saved_log w w') /\
  (exists w', load_log w = Returns tt w'
              /\ sess w' = sess w /\ mon w' = mon w /\ thr w' = thr w
              /\ loaded_log w w').
Proof.
  intros now w. repeat split.
  - apply save_state_returns.
  - destruct (load_state_returns w) as (w' & H & Hs & Hl & _ & _ & _ & Hx).
    exists w'. auto.
  - apply save_log_returns.
  - apply load_log_returns.
Qed.

(** ** The activity log *)

Lemma log_activity_save now ev d w :
  log_activity now ev d w = save_log (appended now ev d w).
Proof.
  unfold log_activity, appended, when, bind, gets, modify, with_log, ret.
  cbn [activity_log sess mon thr env].
  destruct (Nat.ltb_spec 100
              (List.length (activity_log w ++ [mkEntry (stamp now) ev d])))
    as [Hlt | Hle].
  - reflexivity.
  - rewrite lastn_all by exact Hle. reflexivity.
Qed.

Lemma log_activity_returns now ev d w :
  exists w', log_activity now ev d w = Returns tt w'
    /\ sess w' = sess w /\ mon w' = mon w /\ thr w' = thr w
    /\ dialogs (env w') = dialogs (env w)
    /\ after_queue (env w') = after_queue (env w)
    /\ activity_log w' =
         lastn 100 (activity_log w ++ [mkEntry (stamp now) ev d]).
Proof.
  rewrite log_activity_save.
  destruct (save_log_returns (appended now ev d w))
    as (w' & H & (Hs & Hm & Ht & Hl & Hd & Ha) & _).
  exists w'. split; [exact H|]. repeat split; assumption.
Qed.

Lemma log_all_returns cs : forall c w,
  exists w', log_all (c :: cs) w = Returns tt w'
    /\ activity_log w' = lastn 100 (activity_log w ++ map entry_of (c :: cs)).
Proof.
  induction cs as [|c' cs IH]; intros [[now ev] d] w.
  - destruct (log_activity_returns now ev d w) as (w1 & H & _ & _ & _ & _ & _ & Hl).
    exists w1. split; [|exact Hl].
    cbn [log_all]. rewrite (bind_returns _ _ _ _ _ H). reflexivity.
  - destruct (log_activity_returns now ev d w) as (w1 & H & _ & _ & _ & _ & _ & Hl).
    destruct (IH c' w1) as (w2 & H2 & Hl2).
    exists w2. split.
    + change (log_all ((now, ev, d) :: c' :: cs))
        with (log_activity now ev d ;; log_all (c' :: cs)).
      rewrite (bind_returns _ _ _ _ _ H). exact H2.
    + rewrite Hl2, Hl.
      change (map entry_of ((now, ev, d) :: c' :: cs))
        with ([mkEntry (stamp now) ev d] ++ map entry_of (c' :: cs))%list.
      rewrite app_assoc. apply lastn_lastn_app. lia.
Qed.

(** C7. After any non-empty batch of appends the log holds at most 100
    entries: the last 100 of what it held followed by what was appended,
    in order; after 100 appends or more these are exactly the last 100
    appended entries. *)
Theorem log_capped_fifo : forall (c : LogCall) (cs : list LogCall) (w : World),
  exists w', log_all (c :: cs) w = Returns tt w'
    /\ (List.length (activity_log w') <= 100)%nat
    /\ activity_log w' = lastn 100 (activity_log w ++ map entry_of (c :: cs))
    /\ ((100 <= List.length (c :: cs))%nat ->
        activity_log w' = lastn 100 (map entry_of (c :: cs))).
Proof.
  intros c cs w. destruct (log_all_returns cs c w) as (w' & H & Hl).
  exists w'. split; [exact H|]. split; [|split].
  - rewrite Hl, lastn_length. lia.
  - exact Hl.
  - intros Hn. rewrite Hl. apply lastn_app_r. now rewrite length_map.
Qed.

(** After 150 appends to an empty log, the log holds the appends numbered
    51 to 150, in order. *)
Lemma log_capped_fifo_witness :
  exists w',
    log_all (numbered 1 :: map numbered (seq 2 149)) started = Returns tt w'
    /\ List.length (activity_log w') = 100%nat
    /\ activity_log w' = map entry_of (map numbered (seq 51 100)).
Proof.
  destruct (log_capped_fifo (numbered 1) (map numbered (seq 2 149)) started)
    as (w' & H & _ & _ & Hn).
  exists w'. split; [exact H|].
  rewrite Hn by (apply Nat.leb_le; vm_compute; reflexivity).
  split; vm_compute; reflexivity.
Defined.

(** ** The four transitions *)

Lemma log_then_save now ev d w :
  exists w', (log_activity now ev d ;; save_state now) w = Returns tt w'
    /\ sess w' = sess w /\ mon w' = mon w /\ thr w' = thr w
    /\ dialogs (env w') = dialogs (env w)
    /\ after_queue (env w') = after_queue (env w)
    /\ activity_log w' =
         lastn 100 (activity_log w ++ [mkEntry (stamp now) ev d]).
Proof.
  destruct (log_activity_returns now ev d w)
    as (w1 & H1 & Hs1 & Hm1 & Ht1 & Hd1 & Ha1 & Hl1).
  destruct (save_state_returns now w1)
    as (w2 & H2 & (Hs2 & Hm2 & Ht2 & Hl2 & Hd2 & Ha2) & _).
  exists w2. rewrite (bind_returns _ _ _ _ _ H1).
  split; [exact H2|]. repeat split; congruence.
Qed.

Lemma clock_in_returns now w :
  exists w', clock_in now w = Returns tt w'
    /\ sess w' = mkSession true (is_on_break (sess w)) (Some (secs now))
                           (break_start_time (sess w)) 0 0
    /\ mon w' = mkMonitor (secs now) (idle_timeout_seconds (mon w))
                          (idle_timeout_var (mon w)) true true
    /\ thr w' = mkThreads (running (thr w)) true true
                          (sleep_detector_thread (thr w))
                          (last_check_time (thr w)) (_was_logged_in (thr w))
    /\ dialogs (env w') = dialogs (env w)
    /\ after_queue (env w') = after_queue (env w)
    /\ activity_log w' =
         lastn 100 (activity_log w ++
                    [mkEntry (stamp now) "CLOCK_IN" "Started work session"]).
Proof.
  set (pre := mkWorld
         (mkSession true (is_on_break (sess w)) (Some (secs now))
                    (break_start_time (sess w)) 0 0)
         (mkMonitor (secs now) (idle_timeout_seconds (mon w))
                    (idle_timeout_var (mon w)) true true)
         (mkThreads (running (thr w)) true true
                    (sleep_detector_thread (thr w))
                    (last_check_time (thr w)) (_was_logged_in (thr w)))
         (activity_log w) (env w)).
  assert (Hpre : clock_in now w =
                 (log_activity now "CLOCK_IN" "Started work session" ;;
                  save_state now) pre).
  { destruct w as [s [la its itv ml kl] [r ic uu sd lc wl] l e].
    destruct ml, kl, ic, uu; reflexivity. }
  rewrite Hpre. apply (log_then_save now _ _ pre).
Qed.

Lemma take_break_starts now w :
  is_on_break (sess w) = false ->
  exists w', take_break now w = Returns tt w'
    /\ sess w' = mkSession (is_logged_in (sess w)) true
                   (clock_in_time (sess w)) (Some (secs now))
                   (match clock_in_time (sess w) with
                    | Some c => if (c =? 0)%Z then total_active_time (sess w)
                                else total_active_time (sess w) + (secs now - c)
                    | None => total_active_time (sess w)
                    end)
                   (total_break_time (sess w))
    /\ mon w' = mon w /\ thr w' = thr w
    /\ dialogs (env w') = dialogs (env w)
    /\ after_queue (env w') = after_queue (env w)
    /\ activity_log w' =
         lastn 100 (activity_log w ++
                    [mkEntry (stamp now) "BREAK_START" "Started break"]).
Proof.
  intros Hb.
  set (pre := mkWorld
         (mkSession (is_logged_in (sess w)) true
                   (clock_in_time (sess w)) (Some (secs now))
                   (match clock_in_time (sess w) with
                    | Some c => if (c =? 0)%Z then total_active_time (sess w)
                                else total_active_time (sess w) + (secs now - c)
                    | None => total_active_time (sess w)
                    end)
                   (total_break_time (sess w)))
         (mon w) (thr w) (activity_log w) (env w)).
  assert (Hpre : take_break now w =
                 (log_activity now "BREAK_START" "Started break" ;;
                  save_state now) pre).
  { destruct w as [[li ob ci bs ta tb] m t l e]. cbn in Hb. subst ob.
    destruct ci as [[|p|p]|]; reflexivity. }
  rewrite Hpre. apply (log_then_save now _ _ pre).
Qed.

Lemma resume_work_resumes now w b :
  is_on_break (sess w) = true ->
  break_start_time (sess w) = Some b ->
  exists w', resume_work now w = Returns tt w'
    /\ sess w' = mkSession (is_logged_in (sess w)) false
                   (Some (secs now)) (Some b)
                   (total_active_time (sess w))
                   (total_break_time (sess w) + (secs now - b))
    /\ mon w' = set_last_activity_time (secs now) (mon w)
    /\ thr w' = thr w
    /\ dialogs (env w') = dialogs (env w)
    /\ after_queue (env w') = after_queue (env w)
    /\ activity_log w' =
         lastn 100 (activity_log w ++
                    [mkEntry (stamp now) "BREAK_END"
                       ("Resumed work (break: "
                        ++ str_int (minutes (secs now - b)) ++ "m)")]).
Proof.
  intros Hb Hs.
  set (pre := mkWorld
         (mkSession (is_logged_in (sess w)) false
                   (Some (secs now)) (Some b)
                   (total_active_time (sess w))
                   (total_break_time (sess w) + (secs now - b)))
         (set_last_activity_time (secs now) (mon w))
         (thr w) (activity_log w) (env w)).
  assert (Hpre : resume_work now w =
                 (log_activity now "BREAK_END"
                    ("Resumed work (break: "
                     ++ str_int (minutes (secs now - b)) ++ "m)") ;;
                  save_state now) pre).
  { destruct w as [[li ob ci bs ta tb] m t l e]. cbn in Hb, Hs. subst ob bs.
    reflexivity. }
  rewrite Hpre. apply (log_then_save now _ _ pre).
Qed.

Lemma resume_work_idle now w :
  is_on_break (sess w) = false -> resume_work now w = Returns tt w.
Proof.
  intros Hb. destruct w as [[li ob ci bs ta tb] m t l e].
  cbn in Hb. subst ob. reflexivity.
Qed.

Lemma take_break_toggles now w :
  is_on_break (sess w) = true -> take_break now w = resume_work now w.
Proof.
  intros Hb. destruct w as [[li ob ci bs ta tb] m t l e].
  cbn in Hb. subst ob. reflexivity.
Qed.

Lemma clock_out_idle auto reason now w :
  is_logged_in (sess w) = false -> clock_out auto reason now w = Returns tt w.
Proof.
  intros Hl. destruct w as [[li ob ci bs ta tb] m t l e].
  cbn in Hl. subst li. reflexivity.
Qed.

(** The open period is folded without error as soon as a break in
    progress has its start recorded. *)
Lemma fold_open_period_returns now w :
  (is_on_break (sess w) = true -> break_start_time (sess w) <> None) ->
  exists w', fold_open_period now w = Returns tt w'
    /\ sess w' =
         (if is_on_break (sess w) then
            match break_start_time (sess w) with
            | Some b => set_total_break_time
                          (total_break_time (sess w) + (secs now - b)) (sess w)
            | None => sess w
            end
          else
            match clock_in_time (sess w) with
            | Some c => if (c =? 0)%Z then sess w
                        else set_total_active_time
                               (total_active_time (sess w) + (secs now - c))
                               (sess w)
            | None => sess w
            end)
    /\ mon w' = mon w /\ thr w' = thr w
    /\ activity_log w' = activity_log w /\ env w' = env w.
Proof.
  intros Hbs. destruct w as [[li ob ci bs ta tb] m t l e]. cbn in *.
  unfold fold_open_period, since_break_start, fold_active, truthy_time,
    bind, gets, modify, when, ret. cbn.
  destruct ob.
  - destruct bs as [b|]; [|now destruct Hbs].
    cbn. eexists. split; [reflexivity|]. repeat split.
  - destruct ci as [[|p|p]|];
      cbn; eexists; (split; [reflexivity|]); repeat split.
Qed.

Lemma stop_activity_monitoring_returns w :
  stop_activity_monitoring w =
  Returns tt (with_mon (fun m => set_keyboard_listener false
                                   (set_mouse_listener false m)) w).
Proof.
  destruct w as [s [la its itv ml kl] t l e]. destruct ml, kl; reflexivity.
Qed.

(** One step of a sequence whose head is an assignment or a read. *)
Ltac step_modify :=
  match goal with
  | |- context [bind (modify ?f) ?k ?w] =>
      change (bind (modify f) k w) with (k tt (f w)); cbv beta
  end.
Ltac step_gets :=
  match goal with
  | |- context [bind (gets ?f) ?k ?w] =>
      change (bind (gets f) k w) with (k (f w) w); cbv beta
  end.
Ltac step_with H := rewrite (bind_returns _ _ _ _ _ H).

(** [clock_out] from a logged-in state, given the folded world. *)
Lemma clock_out_returns auto reason now w w1 :
  is_logged_in (sess w) = true ->
  fold_open_period now w = Returns tt w1 ->
  exists w', clock_out auto reason now w = Returns tt w'
    /\ sess w' = mkSession false false None (break_start_time (sess w1)) 0 0
    /\ mon w' = set_keyboard_listener false
                  (set_mouse_listener false (mon w1))
    /\ thr w' = thr w1
    /\ dialogs (env w') =
         (dialogs (env w1) ++
          if auto
          then [ShowWarning "Auto Clock Out"
                  ("You have been automatically clocked out due to: "
                   ++ reason)%string]
          else [])%list
    /\ after_queue (env w') = after_queue (env w1)
    /\ activity_log w' =
         lastn 100 (activity_log w1 ++
                    [mkEntry (stamp now) "CLOCK_OUT"
                       (reason ++ " | Active: "
                        ++ timedelta_str (total_active_time (sess w1))
                        ++ " | Breaks: "
                        ++ timedelta_str (total_break_time (sess w1)))]).
Proof.
  intros Hl Hf.
  set (d := (reason ++ " | Active: "
             ++ timedelta_str (total_active_time (sess w1))
             ++ " | Breaks: "
             ++ timedelta_str (total_break_time (sess w1)))%string).
  set (pre := with_mon (fun m => set_keyboard_listener false
                                   (set_mouse_listener false m))
                (with_sess (set_is_on_break false)
                   (with_sess (set_is_logged_in false) w1))).
  destruct (log_activity_returns now "CLOCK_OUT" d pre)
    as (w2 & H2 & Hs2 & Hm2 & Ht2 & Hd2 & Ha2 & Hl2).
  set (w3 := with_sess (set_total_break_time 0)
               (with_sess (set_total_active_time 0)
                  (with_sess (set_clock_in_time None) w2))).
  destruct (save_state_returns now w3)
    as (w4 & H4 & (Hs4 & Hm4 & Ht4 & Hl4 & Hd4 & Ha4) & _).
  assert (Hco : clock_out auto reason now w =
                when auto
                  (show (ShowWarning "Auto Clock Out"
                     ("You have been automatically clocked out due to: "
                      ++ reason))) w4).
  { unfold clock_out. step_gets. rewrite Hl. cbn [negb].
    step_with Hf. step_modify. step_modify.
    step_with (stop_activity_monitoring_returns
                 (with_sess (set_is_on_break false)
                    (with_sess (set_is_logged_in false) w1))).
    fold pre. step_gets.
    change (timedelta_str (total_active_time (sess pre)))
      with (timedelta_str (total_active_time (sess w1))).
    change (timedelta_str (total_break_time (sess pre)))
      with (timedelta_str (total_break_time (sess w1))).
    fold d. step_with H2. step_modify. step_modify. step_modify.
    fold w3. step_with H4. reflexivity. }
  rewrite Hco.
  assert (Hs3 : sess w3 = mkSession false false None
                            (break_start_time (sess w1)) 0 0).
  { unfold w3. cbn. rewrite Hs2. reflexivity. }
  assert (Hd3 : dialogs (env w3) = dialogs (env w1)) by exact Hd2.
  assert (Hl3 : activity_log w3 =
                lastn 100 (activity_log w1 ++ [mkEntry (stamp now) "CLOCK_OUT" d]))
    by exact Hl2.
  assert (Hm3 : mon w3 = set_keyboard_listener false
                           (set_mouse_listener false (mon w1))) by exact Hm2.
  assert (Ht3 : thr w3 = thr w1) by exact Ht2.
  assert (Ha3 : after_queue (env w3) = after_queue (env w1)) by exact Ha2.
  destruct auto; cbn; eexists; (split; [reflexivity|]); cbn;
    rewrite ?app_nil_r; repeat split; congruence.
Qed.

Lemma status_logged_out w :
  status w = LoggedOut <-> is_logged_in (sess w) = false.
Proof.
  unfold status. destruct (is_logged_in (sess w)), (is_on_break (sess w));
    split; congruence.
Qed.

Lemma status_active w :
  status w = Active <->
  is_logged_in (sess w) = true /\ is_on_break (sess w) = false.
Proof.
  unfold status. destruct (is_logged_in (sess w)), (is_on_break (sess w));
    intuition congruence.
Qed.

Lemma status_on_break w :
  status w = OnBreak <->
  is_logged_in (sess w) = true /\ is_on_break (sess w) = true.
Proof.
  unfold status. destruct (is_logged_in (sess w)), (is_on_break (sess w));
    intuition congruence.
Qed.

Lemma do_ops_app l1 : forall l2 w w1,
  do_ops l1 w = Returns tt w1 -> do_ops (l1 ++ l2) w = do_ops l2 w1.
Proof.
  induction l1 as [|[o now] l1 IH]; intros l2 w w1 H.
  - cbn in H. injection H as <-. reflexivity.
  - cbn [do_ops app] in *. unfold bind in *.
    destruct (do_op o now w) as [u w'|e w']; [|discriminate].
    now apply IH.
Qed.

(* ------------------------------------------------------------------ *)
(** ** C6: repeated clock-out *)

(** C6. From a logged-out state any number of calls of [clock_out], with
    any arguments, returns at once each time and leaves the whole world as
    it was: no attribute changes and no log entry is appended. *)
Theorem clock_out_idempotent :
  forall (args : list (bool * string * Instant)) (w : World),
    status w = LoggedOut ->
    do_ops (clock_out_calls args) w = Returns tt w.
Proof.
  intros args w Hs. apply status_logged_out in Hs.
  induction args as [|[[auto reason] now] args IH].
  - reflexivity.
  - cbn [clock_out_calls map do_ops do_op]. unfold bind.
    rewrite (clock_out_idle auto reason now w Hs). exact IH.
Qed.

Lemma clock_out_idempotent_witness :
  status started = LoggedOut /\
  do_ops (clock_out_calls [(false, manual_reason, at_secs 5);
                           (true, "Idle timeout", at_secs 9)]) started
  = Returns tt started.
Proof.
  split; [reflexivity|].
  apply (clock_out_idempotent
           [(false, manual_reason, at_secs 5);
            (true, "Idle timeout", at_secs 9)] started).
  reflexivity.
Defined.

(* ------------------------------------------------------------------ *)
(** ** C8: the break command while on break *)

(** C8. In every on-break state the break command and [resume_work]
    have the same outcome: the same resulting world (attributes, log,
    files, dialogs) or the same exception. *)
Theorem break_command_resumes : forall (now : Instant) (w : World),
  status w = OnBreak -> take_break now w = resume_work now w.
Proof.
  intros now w Hs. apply status_on_break in Hs.
  apply take_break_toggles, Hs.
Qed.

Lemma break_command_resumes_witness :
  status pausing = OnBreak /\
  take_break (at_secs 1400) pausing = resume_work (at_secs 1400) pausing.
Proof.
  split; [reflexivity|].
  apply (break_command_resumes (at_secs 1400) pausing).
  reflexivity.
Defined.

(* ------------------------------------------------------------------ *)
(** ** C2: calls outside the state a transition applies to *)


(** The program itself can call [clock_in] on an Active session: after an
    interrupted run, [check_unexpected_shutdown] schedules [clock_in] one
    second ahead, and the button may be pressed first. *)
Example scheduled_clock_in_reaches_active_session :
  map event
    (activity_log
       (run_events [EvClockInBtn (at_secs 1000); EvAfter 0 false (at_secs 1001)]
          (world_of (boot (at_secs 999) interrupted))))
  = ["UNEXPECTED_SHUTDOWN"; "CLOCK_IN"; "CLOCK_IN"].
Proof. vm_compute. reflexivity. Qed.



(* ------------------------------------------------------------------ *)
(** ** The scenario of the specification on the coarse clock *)

(** The specification's scenario on the coarse clock, one integer reading
    per call, shifted to second 1000: the summary reads 3 min 20 s active
    and 5 min of breaks. *)
Example shifted_scenario_summary :
  let w := world_of
    (do_ops [(OpClockIn, at_secs 1000); (OpStartBreak, at_secs 1100);
             (OpResumeWork, at_secs 1400);
             (OpClockOut false manual_reason, at_secs 1500)] started) in
  details (last (activity_log w) (mkEntry "" "" ""))
  = "Manual clock out | Active: 0:03:20 | Breaks: 0:05:00".
Proof. vm_compute. reflexivity. Qed.

(** At second 0 the clock-in time is a false value to Python, and the
    first active period is not counted. *)
Example zero_scenario_summary :
  let w := world_of (do_ops scenario_at_zero started) in
  details (last (activity_log w) (mkEntry "" "" ""))
  = "Manual clock out | Active: 0:01:40 | Breaks: 0:05:00".
Proof. vm_compute. reflexivity. Qed.

(* ------------------------------------------------------------------ *)
(* ------------------------------------------------------------------ *)
(** ** C1: the time a session accounts for *)

(** On a clock that ticks once a second and is read once in a call, the
    transitions on readings are the transitions above. *)
Lemma at_reading_secs now : at_reading now (secs now) = now.
Proof. destruct now; reflexivity. Qed.

Lemma ticks_clock_in_once now w :
  Ticks.clock_in now (reading (secs now)) w = clock_in now w.
Proof. reflexivity. Qed.

Lemma ticks_resume_work_once now w :
  Ticks.resume_work 1 now (reading (secs now)) w = resume_work now w.
Proof.
  unfold Ticks.resume_work, resume_work, reading.
  rewrite at_reading_secs. reflexivity.
Qed.

Lemma ticks_take_break_once now w :
  Ticks.take_break 1 now (reading (secs now)) w = take_break now w.
Proof.
  unfold Ticks.take_break, take_break. step_gets. step_gets.
  destruct (is_on_break (sess w)); cbn [negb].
  - apply ticks_resume_work_once.
  - unfold reading. rewrite at_reading_secs. reflexivity.
Qed.

Lemma ticks_clock_out_once auto reason now w :
  Ticks.clock_out 1 auto reason now (reading (secs now)) w
  = clock_out auto reason now w.
Proof.
  unfold Ticks.clock_out, clock_out, reading. rewrite at_reading_secs.
  apply bind_ext. intros s w0. destruct (negb (is_logged_in s)); [reflexivity|].
  do 4 (apply bind_ext; intros [] ?).
  apply bind_ext. intros ? ?.
  unfold whole_seconds. rewrite !Z.quot_1_r. reflexivity.
Qed.

(** *** One call *)







(** *** The calls of a session *)




(** *** The measure *)




(** *** Clock-out *)


(** *** The claim *)




(** ** What a method leaves alone *)

Section Preservation.
Context {X : Type} (proj : World -> X).

Lemma preserves_ret {A} (a : A) : preserves proj (ret a).
Proof. intros w. reflexivity. Qed.

Lemma preserves_raise {A} (e : Exn) : preserves proj (@raise A e).
Proof. intros w. reflexivity. Qed.

Lemma preserves_gets {A} (f : World -> A) : preserves proj (gets f).
Proof. intros w. reflexivity. Qed.

Lemma preserves_modify (f : World -> World) :
  (forall w, proj (f w) = proj w) -> preserves proj (modify f).
Proof. intros H w. apply H. Qed.

Lemma preserves_bind {A B} (c : M A) (k : A -> M B) :
  preserves proj c -> (forall a, preserves proj (k a)) ->
  preserves proj (bind c k).
Proof.
  intros Hc Hk w. unfold bind. specialize (Hc w).
  destruct (c w) as [a w1|e w1]; cbn in *.
  - rewrite Hk. exact Hc.
  - exact Hc.
Qed.

Lemma preserves_try {A} (body : M A) (handler : Exn -> M A) :
  preserves proj body -> (forall e, preserves proj (handler e)) ->
  preserves proj (try_except body handler).
Proof.
  intros Hb Hh w. unfold try_except. specialize (Hb w).
  destruct (body w) as [a w1|e w1]; cbn in *.
  - exact Hb.
  - rewrite Hh. exact Hb.
Qed.

Lemma preserves_when (b : bool) (c : M unit) :
  preserves proj c -> preserves proj (when b c).
Proof. intros Hc. destruct b; [exact Hc | apply preserves_ret]. Qed.
End Preservation.

Lemma never_raises_ret {A} (a : A) : never_raises (ret a).
Proof. intros w. now exists a, w. Qed.

Lemma never_raises_gets {A} (f : World -> A) : never_raises (gets f).
Proof. intros w. now exists (f w), w. Qed.

Lemma never_raises_modify (f : World -> World) : never_raises (modify f).
Proof. intros w. now exists tt, (f w). Qed.

Lemma never_raises_bind {A B} (c : M A) (k : A -> M B) :
  never_raises c -> (forall a, never_raises (k a)) -> never_raises (bind c k).
Proof.
  intros Hc Hk w. destruct (Hc w) as (a & w1 & H1).
  destruct (Hk a w1) as (b & w2 & H2).
  exists b, w2. unfold bind. now rewrite H1.
Qed.

Lemma never_raises_try {A} (body : M A) (handler : Exn -> M A) :
  (forall e, never_raises (handler e)) -> never_raises (try_except body handler).
Proof.
  intros Hh w. unfold try_except.
  destruct (body w) as [a w1|e w1]; [now exists a, w1 | apply Hh].
Qed.

Lemma never_raises_when (b : bool) (c : M unit) :
  never_raises c -> never_raises (when b c).
Proof. intros Hc. destruct b; [exact Hc | apply never_raises_ret]. Qed.

(** Splits a goal along the structure of the method body. *)
Ltac frame :=
  repeat first
    [ progress intros
    | match goal with
      | |- preserves _ (bind _ _) => apply preserves_bind
      | |- preserves _ (try_except _ _) => apply preserves_try
      | |- preserves _ (when _ _) => apply preserves_when
      | |- preserves _ (ret _) => apply preserves_ret
      | |- preserves _ (raise _) => apply preserves_raise
      | |- preserves _ (gets _) => apply preserves_gets
      | |- never_raises (bind _ _) => apply never_raises_bind
      | |- never_raises (try_except _ _) => apply never_raises_try
      | |- never_raises (when _ _) => apply never_raises_when
      | |- never_raises (ret _) => apply never_raises_ret
      | |- never_raises (gets _) => apply never_raises_gets
      | |- never_raises (modify _) => apply never_raises_modify
      | |- preserves _ (match ?x with _ => _ end) => destruct x
      | |- never_raises (match ?x with _ => _ end) => destruct x
      end ].

Section Frames.
Context {X : Type} (proj : World -> X).
(** [proj] looks at nothing but the session attributes and the two
    detector attributes. *)
Hypothesis proj_local :
  forall w w', sess w' = sess w -> detector w' = detector w ->
               proj w' = proj w.

Lemma preserves_outside (f : World -> World) :
  (forall w, sess (f w) = sess w) ->
  (forall w, detector (f w) = detector w) ->
  preserves proj (modify f).
Proof. intros Hs Hd w. apply proj_local; [apply Hs | apply Hd]. Qed.

Lemma preserves_print line : preserves proj (print line).
Proof. now apply preserves_outside. Qed.

Lemma preserves_show d : preserves proj (show d).
Proof. now apply preserves_outside. Qed.

Lemma preserves_root_after ms cb : preserves proj (root_after ms cb).
Proof. now apply preserves_outside. Qed.

Lemma preserves_save_state now : preserves proj (save_state now).
Proof.
  unfold save_state, write_config. frame; try apply preserves_print.
  now apply preserves_outside.
Qed.

Lemma preserves_save_log : preserves proj save_log.
Proof.
  unfold save_log, write_log. frame; try apply preserves_print.
  now apply preserves_outside.
Qed.

Lemma preserves_load_state : preserves proj load_state.
Proof.
  unfold load_state, read_json.
  frame; try apply preserves_print; now apply preserves_outside.
Qed.

Lemma preserves_load_log : preserves proj load_log.
Proof.
  unfold load_log, read_json.
  frame; try apply preserves_print; now apply preserves_outside.
Qed.

Lemma preserves_log_activity now ev d : preserves proj (log_activity now ev d).
Proof.
  unfold log_activity.
  frame; try apply preserves_save_log; now apply preserves_outside.
Qed.

Lemma preserves_check_unexpected_shutdown now :
  preserves proj (check_unexpected_shutdown now).
Proof.
  unfold check_unexpected_shutdown.
  frame; auto using preserves_log_activity, preserves_show,
           preserves_root_after.
Qed.

Lemma preserves_init now : preserves proj (init now).
Proof.
  unfold init, setup_ui.
  frame; auto using preserves_load_state, preserves_check_unexpected_shutdown.
  now apply preserves_outside.
Qed.

Lemma preserves_boot now e :
  proj (world_of (boot now e)) = proj (fresh now e).
Proof.
  unfold boot.
  apply (preserves_bind proj (init now) (fun _ => load_log)).
  - apply preserves_init.
  - intros _. apply preserves_load_log.
Qed.
End Frames.

Lemma never_raises_save_state now : never_raises (save_state now).
Proof. intros w. destruct (save_state_returns now w) as (w' & H & _). eauto. Qed.

Lemma never_raises_log_activity now ev d : never_raises (log_activity now ev d).
Proof.
  intros w. destruct (log_activity_returns now ev d w) as (w' & H & _). eauto.
Qed.

Lemma never_raises_load_state : never_raises load_state.
Proof. intros w. destruct (load_state_returns w) as (w' & H & _). eauto. Qed.

Lemma never_raises_load_log : never_raises load_log.
Proof. intros w. destruct (load_log_returns w) as (w' & H & _). eauto. Qed.

Lemma never_raises_boot now e : exists w, boot now e = Returns tt w.
Proof.
  assert (H : never_raises (init now ;; load_log)).
  { unfold init, setup_ui, check_unexpected_shutdown, show, root_after.
    frame; auto using never_raises_load_state, never_raises_load_log,
             never_raises_log_activity. }
  destruct (H (fresh now e)) as ([] & w & Hw). now exists w.
Qed.

Lemma boot_session now e :
  sess (world_of (boot now e)) = mkSession false false None None 0 0.
Proof.
  apply (preserves_boot sess (fun w w' Hs _ => Hs) now e).
Qed.

Lemma boot_detector now e :
  detector (world_of (boot now e)) = (false, None).
Proof.
  apply (preserves_boot detector (fun w w' _ Hd => Hd) now e).
Qed.

(* ------------------------------------------------------------------ *)
(** ** C5: which timestamps are recorded in which state *)

Lemma times_recorded_op o now w :
  times_recorded w ->
  exists w', do_op o now w = Returns tt w' /\ times_recorded w'.
Proof.
  intros [Hci Hbs].
  assert (Hresume : exists w', resume_work now w = Returns tt w'
                               /\ times_recorded w').
  { destruct (is_on_break (sess w)) eqn:Hb.
    - destruct (break_start_time (sess w)) as [b|] eqn:Eb;
        [|now destruct Hbs].
      destruct (resume_work_resumes now w b Hb Eb) as (w' & H & Hs & _).
      exists w'. split; [exact H|].
      unfold times_recorded. rewrite Hs. cbn. split; congruence.
    - exists w. split; [apply resume_work_idle, Hb|].
      split; [exact Hci | congruence]. }
  destruct o as [| | |auto reason]; cbn [do_op].
  - destruct (clock_in_returns now w) as (w' & H & Hs & _).
    exists w'. split; [exact H|].
    unfold times_recorded. rewrite Hs. cbn. split; [congruence|exact Hbs].
  - destruct (is_on_break (sess w)) eqn:Hb.
    + rewrite (take_break_toggles now w Hb). exact Hresume.
    + destruct (take_break_starts now w Hb) as (w' & H & Hs & _).
      exists w'. split; [exact H|].
      unfold times_recorded. rewrite Hs. cbn. split; [exact Hci|congruence].
  - exact Hresume.
  - destruct (is_logged_in (sess w)) eqn:Hl.
    + destruct (fold_open_period_returns now w Hbs) as (w1 & H1 & _).
      destruct (clock_out_returns auto reason now w w1 Hl H1)
        as (w' & H & Hs & _).
      exists w'. split; [exact H|].
      unfold times_recorded. rewrite Hs. cbn. split; congruence.
    + exists w. split; [apply clock_out_idle, Hl|].
      split; [congruence | exact Hbs].
Qed.

Lemma times_recorded_ops ops : forall w,
  times_recorded w ->
  exists w', do_ops ops w = Returns tt w' /\ times_recorded w'.
Proof.
  induction ops as [|[o now] ops IH]; intros w Hw.
  - exists w. split; [reflexivity | exact Hw].
  - destruct (times_recorded_op o now w Hw) as (w1 & H1 & Hw1).
    destruct (IH w1 Hw1) as (w2 & H2 & Hw2).
    exists w2. split; [|exact Hw2]. cbn [do_ops]. step_with H1. exact H2.
Qed.

(** C5, as stated, fails: during a break the clock-in time is still set,
    and after the break its start is still set. *)
Lemma clock_in_time_kept_on_break :
  (status pausing = OnBreak /\ clock_in_time (sess pausing) = Some 1000) /\
  (status resumed = Active /\ break_start_time (sess resumed) = Some 1100) /\
  ~ (clock_in_time (sess pausing) <> None <-> status pausing = Active) /\
  ~ (break_start_time (sess resumed) <> None <-> status resumed = OnBreak).
Proof.
  split; [split; vm_compute; reflexivity|].
  split; [split; vm_compute; reflexivity|]. split.
  - intros [H _].
    assert (E : status pausing = Active).
    { apply H. vm_compute. discriminate. }
    vm_compute in E. discriminate.
  - intros [H _].
    assert (E : status resumed = OnBreak).
    { apply H. vm_compute. discriminate. }
    vm_compute in E. discriminate.
Qed.

(** C5, amended. Every sequence of the four operations run from start-up
    raises nothing and ends in a state where the clock-in time is set
    whenever the session is Active or OnBreak and the break start is set
    whenever it is OnBreak; from a logged-in such state [clock_out] clears
    the clock-in time and leaves the break start as it folded it. *)
Theorem recorded_times_in_reachable_states :
  forall (t0 : Instant) (e : Env) (ops : list (Op * Instant)),
  exists w,
    do_ops ops (world_of (boot t0 e)) = Returns tt w
    /\ (status w = Active -> clock_in_time (sess w) <> None)
    /\ (status w = OnBreak ->
        clock_in_time (sess w) <> None /\ break_start_time (sess w) <> None)
    /\ (forall auto reason now,
          status w <> LoggedOut ->
          exists w', clock_out auto reason now w = Returns tt w'
                     /\ status w' = LoggedOut
                     /\ clock_in_time (sess w') = None
                     /\ break_start_time (sess w') = break_start_time (sess w)).
Proof.
  intros t0 e ops.
  assert (H0 : times_recorded (world_of (boot t0 e))).
  { unfold times_recorded. rewrite boot_session. cbn. split; discriminate. }
  destruct (times_recorded_ops ops _ H0) as (w & H & Hci & Hbs).
  exists w. split; [exact H|]. split; [|split].
  - intros Hs. apply status_active in Hs. apply Hci, Hs.
  - intros Hs. apply status_on_break in Hs. split; [apply Hci|apply Hbs]; apply Hs.
  - intros auto reason now Hs.
    assert (Hl : is_logged_in (sess w) = true).
    { destruct (is_logged_in (sess w)) eqn:E; [reflexivity|].
      exfalso. apply Hs, status_logged_out, E. }
    destruct (fold_open_period_returns now w Hbs) as (w1 & H1 & Hs1 & _).
    destruct (clock_out_returns auto reason now w w1 Hl H1)
      as (w' & H' & Hs' & _).
    exists w'. split; [exact H'|]. rewrite Hs'. cbn.
    split; [apply status_logged_out; rewrite Hs'; reflexivity|].
    split; [reflexivity|]. rewrite Hs1.
    destruct (is_on_break (sess w)).
    + destruct (break_start_time (sess w)) eqn:E; cbn; congruence.
    + destruct (clock_in_time (sess w)) as [c|]; [|reflexivity].
      destruct (c =? 0)%Z; reflexivity.
Qed.

Lemma recorded_times_in_reachable_states_witness :
  exists w,
    do_ops [(OpClockIn, at_secs 1000); (OpStartBreak, at_secs 1100)]
           (world_of (boot (at_secs 1) no_files)) = Returns tt w
    /\ clock_in_time (sess w) <> None /\ break_start_time (sess w) <> None.
Proof.
  destruct (recorded_times_in_reachable_states (at_secs 1) no_files
              [(OpClockIn, at_secs 1000); (OpStartBreak, at_secs 1100)])
    as (w & H & _ & Hb & _).
  exists w. split; [exact H|]. apply Hb.
  assert (E : Returns tt w = Returns tt
                (world_of (do_ops [(OpClockIn, at_secs 1000);
                                   (OpStartBreak, at_secs 1100)]
                             (world_of (boot (at_secs 1) no_files))))).
  { rewrite <- H. vm_compute. reflexivity. }
  injection E as ->. vm_compute. reflexivity.
Defined.

(* ------------------------------------------------------------------ *)
(** ** C3: the idle check *)

Lemma check_idle_tick_cases now w :
  check_idle_tick now w =
  if is_logged_in (sess w) && negb (is_on_break (sess w))
     && (idle_timeout_seconds (mon w) <? secs now - last_activity_time (mon w))%Z
  then (log_activity now "IDLE_TIMEOUT"
          ("Idle for "
           ++ str_int (minutes (secs now - last_activity_time (mon w)))
           ++ " minutes") ;;
        clock_out true "Idle timeout" now) w
  else Returns tt w.
Proof.
  destruct w as [[li ob ci bs ta tb] [la its itv ml kl] t l e].
  unfold check_idle_tick. step_gets.
  cbn [sess mon is_logged_in is_on_break last_activity_time
       idle_timeout_seconds].
  destruct li, ob; cbn [andb negb when]; try reflexivity.
  step_gets.
  cbn [sess mon is_logged_in is_on_break last_activity_time
       idle_timeout_seconds].
  destruct (its <? secs now - la)%Z; reflexivity.
Qed.

(** C3. An idle-check tick clocks the user out exactly when the session
    is Active and the time since the last activity exceeds the timeout:
    then the log receives an IDLE_TIMEOUT entry followed by the CLOCK_OUT
    entry of [clock_out(auto=True, reason="Idle timeout")], the warning
    dialog is shown and the session is LoggedOut; in every other case, in
    particular while OnBreak or LoggedOut, the tick changes nothing. *)
Theorem idle_timeout_fires_exactly : forall (now : Instant) (w : World),
  (status w = Active /\
   secs now - last_activity_time (mon w) > idle_timeout_seconds (mon w) ->
   exists w' a b,
     check_idle_tick now w = Returns tt w'
     /\ status w' = LoggedOut
     /\ dialogs (env w') = (dialogs (env w) ++ [idle_warning])%list
     /\ activity_log w' =
          lastn 100
            (lastn 100
               (activity_log w ++
                [mkEntry (stamp now) "IDLE_TIMEOUT"
                   ("Idle for "
                    ++ str_int (minutes (secs now - last_activity_time (mon w)))
                    ++ " minutes")]) ++
             [mkEntry (stamp now) "CLOCK_OUT"
                ("Idle timeout | Active: " ++ timedelta_str a
                 ++ " | Breaks: " ++ timedelta_str b)])) /\
  (~ (status w = Active /\
      secs now - last_activity_time (mon w) > idle_timeout_seconds (mon w)) ->
   check_idle_tick now w = Returns tt w).
Proof.
  intros now w. rewrite check_idle_tick_cases. split.
  - intros [Hs Hidle]. apply status_active in Hs. destruct Hs as [Hl Hb].
    rewrite Hl, Hb. cbn [andb negb].
    destruct (Z.ltb_spec (idle_timeout_seconds (mon w))
                (secs now - last_activity_time (mon w))) as [_|Hle]; [|lia].
    destruct (log_activity_returns now "IDLE_TIMEOUT"
                ("Idle for "
                 ++ str_int (minutes (secs now - last_activity_time (mon w)))
                 ++ " minutes") w)
      as (w1 & H1 & Hs1 & _ & _ & Hd1 & _ & Hl1).
    destruct (fold_open_period_returns now w1) as (w2 & H2 & _ & _ & _ & Hl2 & He2).
    { rewrite Hs1, Hb. discriminate. }
    destruct (clock_out_returns true "Idle timeout" now w1 w2) as
      (w' & H' & Hs' & _ & _ & Hd' & _ & Hl'); [congruence | exact H2 |].
    exists w', (total_active_time (sess w2)), (total_break_time (sess w2)).
    step_with H1. split; [exact H'|].
    split; [apply status_logged_out; rewrite Hs'; reflexivity|].
    split.
    + rewrite Hd', He2, Hd1. reflexivity.
    + rewrite Hl', Hl2, Hl1. reflexivity.
  - intros Hn.
    destruct (is_logged_in (sess w)) eqn:Hl; [|reflexivity].
    destruct (is_on_break (sess w)) eqn:Hb; [reflexivity|].
    cbn [andb negb].
    destruct (Z.ltb_spec (idle_timeout_seconds (mon w))
                (secs now - last_activity_time (mon w))) as [Hlt|_];
      [|reflexivity].
    exfalso. apply Hn. split; [apply status_active; auto | lia].
Qed.

(** Clocked in at second 1000 with the default timeout of 300 seconds: a
    tick at second 1301 fires, a tick at second 1300 does not, and no tick
    fires during a break. *)
Lemma idle_timeout_fires_exactly_witness :
  (exists w' a b,
     check_idle_tick (at_secs 1301) working = Returns tt w'
     /\ status w' = LoggedOut
     /\ dialogs (env w') = (dialogs (env working) ++ [idle_warning])%list
     /\ activity_log w' =
          lastn 100
            (lastn 100
               (activity_log working ++
                [mkEntry (stamp (at_secs 1301)) "IDLE_TIMEOUT"
                   ("Idle for "
                    ++ str_int (minutes (secs (at_secs 1301)
                                         - last_activity_time (mon working)))
                    ++ " minutes")]) ++
             [mkEntry (stamp (at_secs 1301)) "CLOCK_OUT"
                ("Idle timeout | Active: " ++ timedelta_str a
                 ++ " | Breaks: " ++ timedelta_str b)])) /\
  check_idle_tick (at_secs 1300) working = Returns tt working /\
  check_idle_tick (at_secs 9000) pausing = Returns tt pausing.
Proof.
  split; [|split].
  - apply (proj1 (idle_timeout_fires_exactly (at_secs 1301) working)).
    split; [reflexivity | vm_compute; reflexivity].
  - apply (proj2 (idle_timeout_fires_exactly (at_secs 1300) working)).
    intros [_ H]. vm_compute in H. discriminate.
  - apply (proj2 (idle_timeout_fires_exactly (at_secs 9000) pausing)).
    intros [H _]. vm_compute in H. discriminate.
Defined.

(* ------------------------------------------------------------------ *)
(** ** C4 and C10: the time-gap detector *)

Lemma detector_local (w w' : World) :
  sess w' = sess w -> detector w' = detector w -> detector w' = detector w.
Proof. intros _ H. exact H. Qed.

(** Closes the goals [frame] leaves for methods that assign attributes
    other than the detector's. *)
Ltac frame_detector :=
  frame;
  first [ apply preserves_modify; intros; reflexivity
        | apply (preserves_log_activity detector detector_local)
        | apply (preserves_save_state detector detector_local)
        | apply (preserves_show detector detector_local)
        | apply (preserves_root_after detector detector_local)
        | assumption ].

Lemma detector_clock_in now : preserves detector (clock_in now).
Proof.
  unfold clock_in, start_activity_monitoring. frame_detector.
Qed.

Lemma detector_resume_work now : preserves detector (resume_work now).
Proof.
  unfold resume_work, since_break_start. frame_detector.
Qed.

Lemma detector_take_break now : preserves detector (take_break now).
Proof.
  pose proof (detector_resume_work now) as Hr.
  unfold take_break, fold_active. frame_detector.
Qed.

Lemma detector_clock_out auto reason now :
  preserves detector (clock_out auto reason now).
Proof.
  unfold clock_out, fold_open_period, since_break_start, fold_active,
    stop_activity_monitoring.
  frame_detector.
Qed.

Lemma detector_check_idle_tick now : preserves detector (check_idle_tick now).
Proof.
  pose proof (detector_clock_out true "Idle timeout" now) as Hc.
  unfold check_idle_tick. frame_detector.
Qed.

Lemma detector_handle ev :
  match ev with EvGapTick _ => False | _ => True end ->
  preserves detector (handle ev).
Proof.
  destruct ev as [now|now|now|v now|ok now|now|k answer now|now|now];
    intros Hev; try contradiction; cbn [handle].
  - apply detector_clock_in.
  - apply detector_take_break.
  - apply detector_clock_out.
  - unfold update_settings. frame_detector.
  - pose proof (detector_clock_out false "Application closed" now) as Hc.
    unfold on_closing, cleanup_and_exit, stop_activity_monitoring.
    frame_detector.
  - unfold update_activity_time. frame_detector.
  - pose proof (detector_clock_in now) as Hc.
    unfold run_callback, prompt_clock_in_after_resume.
    frame_detector.
  - apply detector_check_idle_tick.
Qed.

(** No event of the main loop starts the detector or assigns
    [last_check_time]. *)
Lemma detector_step ev w :
  sleep_detector_thread (thr w) = false ->
  detector (step ev w) = detector w.
Proof.
  intros Hoff. unfold step.
  destruct (enabled ev w) eqn:Hen; [|reflexivity].
  assert (Hev : match ev with EvGapTick _ => False | _ => True end).
  { destruct ev; try exact I. unfold enabled in Hen. rewrite Hoff in Hen.
    rewrite andb_false_r in Hen. discriminate. }
  pose proof (detector_handle ev Hev w) as Hp.
  destruct (handle ev w) as [u w'|x w']; cbn in Hp; [exact Hp|].
  destruct ev; try exact Hp; contradiction.
Qed.

Lemma detector_run_events evs : forall w,
  detector w = (false, None) -> detector (run_events evs w) = (false, None).
Proof.
  induction evs as [|ev evs IH]; intros w Hw; [exact Hw|].
  cbn [run_events fold_left]. apply IH.
  rewrite detector_step; [exact Hw|].
  unfold detector in Hw. congruence.
Qed.

Lemma detect_sleep_tick_unset now w :
  last_check_time (thr w) = None ->
  detect_sleep_tick now w = Raises (AttributeError "ProductivityTracker" "last_check_time") w.
Proof.
  intros H. unfold detect_sleep_tick, get_last_check_time, bind, gets.
  rewrite H. reflexivity.
Qed.

(** C4 (the code departs from the claim). In every run of the program,
    from start-up through any events of the main loop, the gap detector's
    thread has not been started: no detector tick is ever enabled, and a
    tick offered to the run changes nothing. *)
Theorem gap_detector_never_runs :
  forall (t0 : Instant) (e : Env) (evs : list Event) (now : Instant),
    sleep_detector_thread (thr (run_events evs (world_of (boot t0 e)))) = false
    /\ enabled (EvGapTick now) (run_events evs (world_of (boot t0 e))) = false
    /\ step (EvGapTick now) (run_events evs (world_of (boot t0 e)))
       = run_events evs (world_of (boot t0 e)).
Proof.
  intros t0 e evs now.
  pose proof (detector_run_events evs _ (boot_detector t0 e)) as H.
  unfold detector in H.
  assert (Hoff : sleep_detector_thread
                   (thr (run_events evs (world_of (boot t0 e)))) = false)
    by congruence.
  assert (Hen : enabled (EvGapTick now)
                  (run_events evs (world_of (boot t0 e))) = false).
  { unfold enabled. rewrite Hoff. apply andb_false_r. }
  split; [exact Hoff|]. split; [exact Hen|].
  unfold step. rewrite Hen. reflexivity.
Qed.

(** A session clocked in at second 1000 and left alone: the ticks that
    should notice the 200-second gap never happen and the session stays
    Active. *)
Example sleeping_session_stays_active :
  status (run_events [EvClockInBtn (at_secs 1000); EvGapTick (at_secs 1030);
                      EvGapTick (at_secs 1230)] started) = Active.
Proof. vm_compute. reflexivity. Qed.

(** The body of the tick does what the claim describes once
    [last_check_time] holds a value: with a last check at second 1000, a
    tick at second 1200 of an Active session clocks out, names 3 minutes
    and records the time of the check. *)
Example gap_tick_with_last_check :
  let w := world_of (detect_sleep_tick (at_secs 1200)
             (with_thr (set_last_check_time (Some 1000)) working)) in
  status w = LoggedOut
  /\ last_check_time (thr w) = Some 1200
  /\ dialogs (env w) =
       [ShowWarning "Auto Clock Out"
          "You have been automatically clocked out due to: System was sleeping (3 minutes)"]
  /\ after_queue (env w) = [(2000, CbPromptClockIn)]
  /\ map event (activity_log w) = ["CLOCK_IN"; "SYSTEM_RESUME"; "CLOCK_OUT"].
Proof. vm_compute. repeat split; reflexivity. Qed.

Lemma setup_system_event_handlers_returns system now w :
  exists w', setup_system_event_handlers system now w = Returns tt w'
    /\ sleep_detector_thread (thr w') = true
    /\ last_check_time (thr w') = last_check_time (thr w).
Proof.
  assert (Hlog : forall ev d,
            exists w', (log_activity now ev d ;;
                        modify (with_thr (set_sleep_detector_thread true))) w
                       = Returns tt w'
              /\ sleep_detector_thread (thr w') = true
              /\ last_check_time (thr w') = last_check_time (thr w)).
  { intros ev d.
    destruct (log_activity_returns now ev d w) as (w1 & H1 & _ & _ & Ht & _).
    eexists. step_with H1. split; [reflexivity|]. cbn. rewrite Ht. auto. }
  unfold setup_system_event_handlers.
  destruct system as [advanced failure|pyobjc|dbus|]; cbn.
  - unfold setup_windows_handlers.
    destruct advanced; cbn; [destruct failure; apply Hlog|].
    eexists. split; [reflexivity|]. auto.
  - unfold setup_macos_handlers. destruct pyobjc; apply Hlog.
  - unfold setup_linux_handlers. destruct dbus; apply Hlog.
  - eexists. split; [reflexivity|]. auto.
Qed.

(** C10 (the code departs from the claim). After any run of the program,
    starting the detector as [setup_system_event_handlers] does leaves
    [last_check_time] unassigned, and the first iteration of the loop
    raises AttributeError at its read of the attribute. *)
Theorem first_gap_tick_raises :
  forall (t0 : Instant) (e : Env) (evs : list Event) (system : Platform)
         (t1 t2 : Instant),
  exists w1,
    setup_system_event_handlers system t1
      (run_events evs (world_of (boot t0 e))) = Returns tt w1
    /\ sleep_detector_thread (thr w1) = true
    /\ last_check_time (thr w1) = None
    /\ detect_sleep_tick t2 w1 = Raises (AttributeError "ProductivityTracker" "last_check_time") w1.
Proof.
  intros t0 e evs system t1 t2.
  pose proof (detector_run_events evs _ (boot_detector t0 e)) as H.
  destruct (setup_system_event_handlers_returns system t1
              (run_events evs (world_of (boot t0 e))))
    as (w1 & H1 & Hon & Hlast).
  assert (Hnone : last_check_time (thr w1) = None).
  { rewrite Hlast. unfold detector in H. congruence. }
  exists w1. split; [exact H1|]. split; [exact Hon|]. split; [exact Hnone|].
  apply detect_sleep_tick_unset, Hnone.
Qed.

(** On a fresh start under Linux without D-Bus: the set-up logs its
    fallback to the time-gap detection, and the detector dies at once. *)
Example detector_dies_at_first_tick :
  detect_sleep_tick (at_secs 2)
    (world_of (setup_system_event_handlers (Linux DbusImportError)
                 (at_secs 1) started))
  = Raises (AttributeError "ProductivityTracker" "last_check_time")
      (world_of (setup_system_event_handlers (Linux DbusImportError)
                   (at_secs 1) started)).
Proof. vm_compute. reflexivity. Qed.

(* ------------------------------------------------------------------ *)
(** ** Saving, loading and restarting *)

Lemma save_state_writes now w :
  write_error (config_file (env w)) = None ->
  save_state now w =
  Returns tt (with_env (set_config_file
                          (mkSlot (Holds (CfgObject (snapshot now w))) None)) w).
Proof.
  intros H. unfold save_state, try_except, write_config, bind, gets.
  rewrite H. reflexivity.
Qed.

Lemma load_state_reads w o :
  content (config_file (env w)) = Holds (CfgObject o) ->
  exists w', load_state w = Returns tt w'
    /\ _was_logged_in (thr w') =
         Some (match sf_is_logged_in o with Some b => b | None => false end)
    /\ idle_timeout_seconds (mon w') =
         match sf_idle_timeout_minutes o with
         | Some n => n * 60
         | None => idle_timeout_seconds (mon w)
         end.
Proof.
  intros H. destruct (load_state_returns w) as (w' & Hw & _ & _ & _ & _ & _ & Hl).
  unfold loaded_state in Hl. rewrite H in Hl. destruct Hl as (Hlog & Hidle & _).
  exists w'. auto.
Qed.

(** X1. What [save_state] writes to a writable configuration file,
    [load_state] reads back in the next process: the login flag, and the
    spinbox value as the idle timeout in seconds. *)
Theorem state_round_trip : forall (now later : Instant) (w : World),
  write_error (config_file (env w)) = None ->
  exists w1 v,
    save_state now w = Returns tt w1
    /\ load_state (fresh later (restart (env w1))) = Returns tt v
    /\ _was_logged_in (thr v) = Some (is_logged_in (sess w))
    /\ idle_timeout_seconds (mon v) = idle_timeout_var (mon w) * 60.
Proof.
  intros now later w Hw.
  destruct (load_state_reads
              (fresh later (restart (env (with_env (set_config_file
                 (mkSlot (Holds (CfgObject (snapshot now w))) None)) w))))
              (snapshot now w) eq_refl) as (v & H & Hl & Hi).
  eexists. exists v. split; [apply save_state_writes, Hw|]. auto.
Qed.

Lemma state_round_trip_witness :
  exists w1 v,
    save_state (at_secs 1200) working = Returns tt w1
    /\ load_state (fresh (at_secs 5000) (restart (env w1))) = Returns tt v
    /\ _was_logged_in (thr v) = Some (is_logged_in (sess working))
    /\ idle_timeout_seconds (mon v) = idle_timeout_var (mon working) * 60.
Proof.
  apply (state_round_trip (at_secs 1200) (at_secs 5000) working).
  reflexivity.
Defined.

(** Case analysis over what start-up finds in the two files. *)
Ltac start_up_cases e :=
  destruct e as [[cc cw] [lc lw] con dia aq];
  destruct cc as [|cm|cm|[[[[|]|] ob [tm|] ls]|ty]];
  destruct lw as [lm|]; destruct lc as [|m|m|l].

(** What start-up leaves in the log in memory when the log file can be
    written. *)
Lemma boot_log now e :
  write_error (log_file e) = None ->
  exists w,
    boot now e = Returns tt w
    /\ activity_log w =
         if flagged e then [shutdown_entry now]
         else log_on_disk [] (content (log_file e)).
Proof.
  intros Hw. start_up_cases e; try discriminate;
    (eexists; split; reflexivity).
Qed.

(** X2. After an append with a writable log file, the file holds the log
    in memory.  The next process, started on the two files as they are
    then, enters its main loop with exactly that log when the
    configuration file does not flag an interrupted session; when it
    does, [__init__] has saved the shutdown notice over the log file
    before [run] reads it, and the log is that entry alone. *)
Theorem log_survives_restart :
  forall (now later : Instant) (ev d : string) (w : World),
    write_error (log_file (env w)) = None ->
    exists w1 v,
      log_activity now ev d w = Returns tt w1
      /\ content (log_file (env w1)) = Holds (activity_log w1)
      /\ boot later (restart (env w1)) = Returns tt v
      /\ activity_log v =
           if flagged (env w) then [shutdown_entry later]
           else activity_log w1.
Proof.
  intros now later ev d w Hw. rewrite log_activity_save.
  destruct (save_log_returns (appended now ev d w))
    as (w1 & H1 & (_ & _ & _ & Hl & _) & Hs).
  unfold saved_log in Hs. change (env (appended now ev d w)) with (env w) in Hs.
  rewrite Hw in Hs. destruct Hs as ((Hf & _) & Hc).
  destruct (boot_log later (restart (env w1))) as (v & Hv & Hlog).
  { cbn. rewrite Hf. reflexivity. }
  assert (Hfl : flagged (restart (env w1)) = flagged (env w)).
  { unfold flagged, restart. cbn. rewrite Hc. reflexivity. }
  rewrite Hfl in Hlog. cbn in Hlog. rewrite Hf in Hlog. cbn in Hlog.
  exists w1, v. split; [exact H1|]. split; [rewrite Hf, Hl; reflexivity|].
  split; [exact Hv|]. rewrite Hl. exact Hlog.
Qed.

(** From the world after a clean start-up: the next process has the log. *)
Lemma log_survives_restart_witness :
  exists w1 v,
    log_activity (at_secs 7) "NOTE" "x" started = Returns tt w1
    /\ content (log_file (env w1)) = Holds (activity_log w1)
    /\ boot (at_secs 9) (restart (env w1)) = Returns tt v
    /\ activity_log v = activity_log w1.
Proof.
  apply (log_survives_restart (at_secs 7) (at_secs 9) "NOTE" "x" started).
  reflexivity.
Defined.

(** From a session at work, whose configuration file says so: the next
    process has the shutdown notice alone. *)
Example log_lost_after_interrupted_session :
  exists w1 v,
    log_activity (at_secs 1200) "NOTE" "x" working = Returns tt w1
    /\ List.length (activity_log w1) = 2%nat
    /\ boot (at_secs 5000) (restart (env w1)) = Returns tt v
    /\ activity_log v = [shutdown_entry (at_secs 5000)].
Proof.
  exists (world_of (log_activity (at_secs 1200) "NOTE" "x" working)).
  eexists. split; [vm_compute; reflexivity|].
  split; [vm_compute; reflexivity|].
  split; vm_compute; reflexivity.
Qed.

(** X3. Start-up returns normally, with the session logged out, on every
    pair of files of the model: each file missing, unreadable, not JSON
    or holding a value; the configuration not an object, or an object
    whose [is_logged_in], if present, is a boolean and whose
    [idle_timeout_minutes], if present, is an integer; the log a list of
    entries.  It shows the welcome-back notice and schedules the
    automatic clock-in, one second ahead, exactly when the configuration
    file is such an object with [is_logged_in] true.  (An object with
    [null] as its timeout is not among these files: there [load_state]
    raises at the multiplication and its handler resets the flag.) *)
Theorem startup_schedules_clock_in_iff_flagged :
  forall (now : Instant) (e : Env),
  exists w,
    boot now e = Returns tt w
    /\ sess w = mkSession false false None None 0 0
    /\ after_queue (env w) =
         (after_queue e ++ if flagged e then [(1000, CbClockIn)] else [])%list
    /\ dialogs (env w) =
         (dialogs e ++ if flagged e then [welcome_back] else [])%list.
Proof.
  intros now e. start_up_cases e;
    (eexists; split; [reflexivity|]; cbn; rewrite ?app_nil_r; auto).
Qed.

Lemma startup_flags now e :
  exists w,
    boot now e = Returns tt w
    /\ after_queue (env w) =
         (after_queue e ++ if flagged e then [(1000, CbClockIn)] else [])%list
    /\ dialogs (env w) =
         (dialogs e ++ if flagged e then [welcome_back] else [])%list.
Proof.
  start_up_cases e;
    (eexists; split; [reflexivity|]; cbn; rewrite ?app_nil_r; auto).
Qed.

(** X4. When the configuration file flags an interrupted session and the
    log file is writable, start-up ends with a log of one entry, the
    UNEXPECTED_SHUTDOWN notice, in memory and on disk: the notice is saved
    before the log file is read, so whatever history the file held is
    overwritten. *)
Theorem interrupted_startup_overwrites_history :
  forall (now : Instant) (e : Env),
    flagged e = true ->
    write_error (log_file e) = None ->
    exists w,
      boot now e = Returns tt w
      /\ activity_log w = [shutdown_entry now]
      /\ content (log_file (env w)) = Holds [shutdown_entry now].
Proof.
  intros now e Hf Hw. start_up_cases e; try discriminate;
    (eexists; split; [reflexivity|]; split; reflexivity).
Qed.

Lemma interrupted_startup_overwrites_history_witness :
  exists w,
    boot (at_secs 999)
         (set_log_file (mkSlot (Holds (map entry_of (map numbered (seq 1 30))))
                               None) interrupted)
    = Returns tt w
    /\ activity_log w = [shutdown_entry (at_secs 999)]
    /\ content (log_file (env w)) = Holds [shutdown_entry (at_secs 999)].
Proof.
  apply (interrupted_startup_overwrites_history (at_secs 999)
           (set_log_file (mkSlot (Holds (map entry_of (map numbered (seq 1 30))))
                                 None) interrupted));
    reflexivity.
Defined.

(** X5. When the configuration file flags nothing, start-up leaves both
    files as they are and the log in memory is what the log file holds:
    empty if the file is missing, unreadable or not JSON. *)
Theorem clean_startup_loads_log : forall (now : Instant) (e : Env),
  flagged e = false ->
  exists w,
    boot now e = Returns tt w
    /\ activity_log w = log_on_disk [] (content (log_file e))
    /\ log_file (env w) = log_file e
    /\ config_file (env w) = config_file e.
Proof.
  intros now e Hf. start_up_cases e; try discriminate;
    (eexists; split; [reflexivity|]; repeat split; reflexivity).
Qed.

Lemma clean_startup_loads_log_witness :
  exists w,
    boot (at_secs 1) no_files = Returns tt w
    /\ activity_log w = log_on_disk [] (content (log_file no_files))
    /\ log_file (env w) = log_file no_files
    /\ config_file (env w) = config_file no_files.
Proof.
  apply (clean_startup_loads_log (at_secs 1) no_files). reflexivity.
Defined.

Lemma boot_timeout now e :
  exists w,
    boot now e = Returns tt w
    /\ idle_timeout_var (mon w) = 5
    /\ idle_timeout_seconds (mon w) =
         match content (config_file e) with
         | Holds (CfgObject o) =>
             match sf_idle_timeout_minutes o with
             | Some n => n * 60
             | None => 300
             end
         | _ => 300
         end
    /\ config_file (env w) = config_file e.
Proof.
  start_up_cases e;
    (eexists; split; [reflexivity|]; repeat split; reflexivity).
Qed.

Lemma log_then_save_writes now ev d w :
  write_error (config_file (env w)) = None ->
  exists w', (log_activity now ev d ;; save_state now) w = Returns tt w'
    /\ config_file (env w') =
         mkSlot (Holds (CfgObject (snapshot now w))) None.
Proof.
  intros Hw.
  assert (H1 : exists w1, log_activity now ev d w = Returns tt w1
                 /\ sess w1 = sess w /\ mon w1 = mon w
                 /\ config_file (env w1) = config_file (env w)).
  { rewrite log_activity_save.
    destruct (save_log_returns (appended now ev d w))
      as (w1 & H1 & (Hs & Hm & _) & Hsl).
    exists w1. split; [exact H1|]. split; [exact Hs|]. split; [exact Hm|].
    unfold saved_log in Hsl. apply Hsl. }
  destruct H1 as (w1 & H1 & Hs & Hm & Hc).
  eexists. step_with H1. split.
  - apply save_state_writes. rewrite Hc. exact Hw.
  - cbn. unfold snapshot. rewrite Hs, Hm. reflexivity.
Qed.

Lemma clock_in_saves now w :
  write_error (config_file (env w)) = None ->
  exists w', clock_in now w = Returns tt w'
    /\ config_file (env w') =
         mkSlot (Holds (CfgObject
                   (mkStateFile (Some true) (Some (is_on_break (sess w)))
                                (Some (idle_timeout_var (mon w)))
                                (Some (iso now))))) None.
Proof.
  intros Hw.
  set (pre := mkWorld
         (mkSession true (is_on_break (sess w)) (Some (secs now))
                    (break_start_time (sess w)) 0 0)
         (mkMonitor (secs now) (idle_timeout_seconds (mon w))
                    (idle_timeout_var (mon w)) true true)
         (mkThreads (running (thr w)) true true
                    (sleep_detector_thread (thr w))
                    (last_check_time (thr w)) (_was_logged_in (thr w)))
         (activity_log w) (env w)).
  assert (Hpre : clock_in now w =
                 (log_activity now "CLOCK_IN" "Started work session" ;;
                  save_state now) pre).
  { destruct w as [s [la its itv ml kl] [r ic uu sd lc wl] l e].
    destruct ml, kl, ic, uu; reflexivity. }
  rewrite Hpre. apply (log_then_save_writes now _ _ pre Hw).
Qed.

Lemma clock_out_saves auto reason now w :
  is_logged_in (sess w) = true ->
  times_recorded w ->
  write_error (config_file (env w)) = None ->
  exists w', clock_out auto reason now w = Returns tt w'
    /\ status w' = LoggedOut
    /\ config_file (env w') =
         mkSlot (Holds (CfgObject
                   (mkStateFile (Some false) (Some false)
                                (Some (idle_timeout_var (mon w)))
                                (Some (iso now))))) None.
Proof.
  intros Hl [_ Hbs] Hw.
  destruct (fold_open_period_returns now w Hbs)
    as (w1 & H1 & _ & Hm1 & _ & _ & He1).
  set (pre := with_mon (fun m => set_keyboard_listener false
                                   (set_mouse_listener false m))
                (with_sess (set_is_on_break false)
                   (with_sess (set_is_logged_in false) w1))).
  set (d := (reason ++ " | Active: "
             ++ timedelta_str (total_active_time (sess pre))
             ++ " | Breaks: "
             ++ timedelta_str (total_break_time (sess pre)))%string).
  assert (H2 : exists w2, log_activity now "CLOCK_OUT" d pre = Returns tt w2
                 /\ sess w2 = sess pre /\ mon w2 = mon pre
                 /\ config_file (env w2) = config_file (env w)).
  { rewrite log_activity_save.
    destruct (save_log_returns (appended now "CLOCK_OUT" d pre))
      as (w2 & H2 & (Hs & Hm & _) & Hsl).
    exists w2. split; [exact H2|]. split; [exact Hs|]. split; [exact Hm|].
    unfold saved_log in Hsl. destruct Hsl as (_ & Hc). rewrite Hc.
    cbn. rewrite He1. reflexivity. }
  destruct H2 as (w2 & H2 & Hs2 & Hm2 & Hc2).
  set (w3 := with_sess (set_total_break_time 0)
               (with_sess (set_total_active_time 0)
                  (with_sess (set_clock_in_time None) w2))).
  assert (H4 : save_state now w3 =
               Returns tt (with_env (set_config_file
                  (mkSlot (Holds (CfgObject (snapshot now w3))) None)) w3)).
  { apply save_state_writes. unfold w3. cbn. rewrite Hc2. exact Hw. }
  assert (Hco : clock_out auto reason now w =
                when auto
                  (show (ShowWarning "Auto Clock Out"
                     ("You have been automatically clocked out due to: "
                      ++ reason)))
                  (with_env (set_config_file
                     (mkSlot (Holds (CfgObject (snapshot now w3))) None)) w3)).
  { unfold clock_out. step_gets. rewrite Hl. cbn [negb].
    step_with H1. step_modify. step_modify.
    step_with (stop_activity_monitoring_returns
                 (with_sess (set_is_on_break false)
                    (with_sess (set_is_logged_in false) w1))).
    fold pre. step_gets. fold d. step_with H2.
    step_modify. step_modify. step_modify.
    fold w3. step_with H4. reflexivity. }
  rewrite Hco.
  assert (Hsnap : snapshot now w3 =
                  mkStateFile (Some false) (Some false)
                              (Some (idle_timeout_var (mon w))) (Some (iso now))).
  { unfold snapshot, w3. cbn. rewrite Hs2, Hm2. cbn. rewrite Hm1. reflexivity. }
  assert (Hst : is_logged_in (sess w3) = false).
  { unfold w3. cbn. rewrite Hs2. reflexivity. }
  destruct auto; cbn; eexists; (split; [reflexivity|]); cbn;
    (split; [apply status_logged_out; exact Hst | rewrite Hsnap; reflexivity]).
Qed.

(** X6. Restart detection.  If the process dies after a clock-in whose
    save succeeded, the next start-up shows the welcome-back notice and
    schedules the automatic clock-in; after a clock-out whose save
    succeeded it shows and schedules nothing. *)
Theorem restart_detects_open_session :
  forall (now later : Instant) (w : World) (auto : bool) (reason : string),
    write_error (config_file (env w)) = None ->
    (exists w1 v,
       clock_in now w = Returns tt w1
       /\ boot later (restart (env w1)) = Returns tt v
       /\ after_queue (env v) = [(1000, CbClockIn)]
       /\ dialogs (env v) = [welcome_back])
    /\ (is_logged_in (sess w) = true -> times_recorded w ->
        exists w1 v,
          clock_out auto reason now w = Returns tt w1
          /\ boot later (restart (env w1)) = Returns tt v
          /\ after_queue (env v) = []
          /\ dialogs (env v) = []).
Proof.
  intros now later w auto reason Hw. split.
  - destruct (clock_in_saves now w Hw) as (w1 & H1 & Hc).
    destruct (startup_flags later (restart (env w1)))
      as (v & Hv & Ha & Hd).
    exists w1, v. split; [exact H1|]. split; [exact Hv|].
    unfold flagged in Ha, Hd. cbn in Ha, Hd. rewrite Hc in Ha, Hd.
    auto.
  - intros Hl Ht.
    destruct (clock_out_saves auto reason now w Hl Ht Hw) as (w1 & H1 & _ & Hc).
    destruct (startup_flags later (restart (env w1)))
      as (v & Hv & Ha & Hd).
    exists w1, v. split; [exact H1|]. split; [exact Hv|].
    unfold flagged in Ha, Hd. cbn in Ha, Hd. rewrite Hc in Ha, Hd.
    auto.
Qed.

Lemma restart_detects_open_session_witness :
  (exists w1 v,
     clock_in (at_secs 1000) started = Returns tt w1
     /\ boot (at_secs 5000) (restart (env w1)) = Returns tt v
     /\ after_queue (env v) = [(1000, CbClockIn)]
     /\ dialogs (env v) = [welcome_back])
  /\ (exists w1 v,
        clock_out false manual_reason (at_secs 1500) working = Returns tt w1
        /\ boot (at_secs 5000) (restart (env w1)) = Returns tt v
        /\ after_queue (env v) = []
        /\ dialogs (env v) = []).
Proof.
  split.
  - apply (restart_detects_open_session (at_secs 1000) (at_secs 5000)
             started false manual_reason). reflexivity.
  - apply (restart_detects_open_session (at_secs 1500) (at_secs 5000)
             working false manual_reason).
    + reflexivity.
    + reflexivity.
    + split; [intros _; vm_compute; discriminate
             | intros H; vm_compute in H; discriminate].
Defined.

(** X7. A timeout read from the configuration file is in force for one
    run only: start-up applies it but creates the spinbox variable with
    5, and [save_state] records the spinbox variable, so after the first
    saved clock-in the next start-up is back to 300 seconds. *)
Theorem loaded_timeout_lasts_one_run :
  forall (t0 t1 t2 : Instant) (e : Env) (o : StateFile) (n : Z),
    content (config_file e) = Holds (CfgObject o) ->
    sf_idle_timeout_minutes o = Some n ->
    write_error (config_file e) = None ->
    exists w w1 v,
      boot t0 e = Returns tt w
      /\ idle_timeout_seconds (mon w) = n * 60
      /\ idle_timeout_var (mon w) = 5
      /\ clock_in t1 w = Returns tt w1
      /\ boot t2 (restart (env w1)) = Returns tt v
      /\ idle_timeout_seconds (mon v) = 300.
Proof.
  intros t0 t1 t2 e o n Hc Hn Hw.
  destruct (boot_timeout t0 e) as (w & Hb & Hvar & Hsec & Hcf).
  rewrite Hc, Hn in Hsec.
  destruct (clock_in_saves t1 w) as (w1 & H1 & Hc1).
  { rewrite Hcf. exact Hw. }
  destruct (boot_timeout t2 (restart (env w1))) as (v & Hv & _ & Hsec' & _).
  cbn in Hsec'. rewrite Hc1 in Hsec'. cbn in Hsec'. rewrite Hvar in Hsec'.
  exists w, w1, v. repeat split; assumption.
Qed.

Lemma loaded_timeout_lasts_one_run_witness :
  exists w w1 v,
    boot (at_secs 1)
         (set_config_file
            (mkSlot (Holds (CfgObject (mkStateFile (Some false) (Some false)
                                         (Some 20) (Some "iso 0")))) None)
            no_files) = Returns tt w
    /\ idle_timeout_seconds (mon w) = 20 * 60
    /\ idle_timeout_var (mon w) = 5
    /\ clock_in (at_secs 1000) w = Returns tt w1
    /\ boot (at_secs 5000) (restart (env w1)) = Returns tt v
    /\ idle_timeout_seconds (mon v) = 300.
Proof.
  apply (loaded_timeout_lasts_one_run (at_secs 1) (at_secs 1000) (at_secs 5000)
           (set_config_file
              (mkSlot (Holds (CfgObject (mkStateFile (Some false) (Some false)
                                           (Some 20) (Some "iso 0")))) None)
              no_files)
           (mkStateFile (Some false) (Some false) (Some 20) (Some "iso 0")) 20);
    reflexivity.
Defined.

Lemma update_settings_saves v now w :
  write_error (config_file (env w)) = None ->
  exists w', handle (EvSpinbox v now) w = Returns tt w'
    /\ idle_timeout_seconds (mon w') = v * 60
    /\ config_file (env w') =
         mkSlot (Holds (CfgObject
                   (mkStateFile (Some (is_logged_in (sess w)))
                                (Some (is_on_break (sess w)))
                                (Some v) (Some (iso now))))) None.
Proof.
  intros Hw. eexists. cbn [handle]. step_modify.
  unfold update_settings. step_gets. step_modify. split.
  - apply save_state_writes. exact Hw.
  - split; reflexivity.
Qed.

(** X8. A timeout set with the spinbox takes effect at once, in seconds,
    and, when the save succeeds, is the timeout of the next run. *)
Theorem spinbox_timeout_survives_restart :
  forall (now later : Instant) (v : Z) (w : World),
    write_error (config_file (env w)) = None ->
    exists w1 u,
      handle (EvSpinbox v now) w = Returns tt w1
      /\ idle_timeout_seconds (mon w1) = v * 60
      /\ boot later (restart (env w1)) = Returns tt u
      /\ idle_timeout_seconds (mon u) = v * 60.
Proof.
  intros now later v w Hw.
  destruct (update_settings_saves v now w Hw) as (w1 & H1 & Hs & Hc).
  destruct (boot_timeout later (restart (env w1))) as (u & Hu & _ & Hsec & _).
  cbn in Hsec. rewrite Hc in Hsec. cbn in Hsec.
  exists w1, u. repeat split; assumption.
Qed.

Lemma spinbox_timeout_survives_restart_witness :
  exists w1 u,
    handle (EvSpinbox 20 (at_secs 50)) started = Returns tt w1
    /\ idle_timeout_seconds (mon w1) = 20 * 60
    /\ boot (at_secs 5000) (restart (env w1)) = Returns tt u
    /\ idle_timeout_seconds (mon u) = 20 * 60.
Proof.
  apply (spinbox_timeout_survives_restart (at_secs 50) (at_secs 5000) 20
           started).
  reflexivity.
Defined.

(* ------------------------------------------------------------------ *)
(** ** What holds throughout a run of the program *)

Lemma sound_same w w' :
  sess w' = sess w ->
  mouse_listener (mon w') = mouse_listener (mon w) ->
  keyboard_listener (mon w') = keyboard_listener (mon w) ->
  idle_checker_thread (thr w') = idle_checker_thread (thr w) ->
  sound w -> sound w'.
Proof.
  unfold sound, times_recorded, monitored, watched.
  intros -> -> -> ->. auto.
Qed.

Lemma safe_ret {A} (a : A) : safe (ret a).
Proof. intros w Hw. now exists a, w. Qed.

Lemma safe_gets {A} (f : World -> A) : safe (gets f).
Proof. intros w Hw. now exists (f w), w. Qed.

Lemma safe_modify (f : World -> World) :
  (forall w, sound w -> sound (f w)) -> safe (modify f).
Proof. intros H w Hw. exists tt, (f w). auto. Qed.

Lemma safe_bind {A B} (c : M A) (k : A -> M B) :
  safe c -> (forall a, safe (k a)) -> safe (bind c k).
Proof.
  intros Hc Hk w Hw. destruct (Hc w Hw) as (a & w1 & H1 & Hw1).
  destruct (Hk a w1 Hw1) as (b & w2 & H2 & Hw2).
  exists b, w2. split; [|exact Hw2]. step_with H1. exact H2.
Qed.

Lemma safe_when (b : bool) (c : M unit) : safe c -> safe (when b c).
Proof. intros Hc. destruct b; [exact Hc | apply safe_ret]. Qed.

Lemma safe_log_activity now ev d : safe (log_activity now ev d).
Proof.
  intros w Hw.
  destruct (log_activity_returns now ev d w) as (w' & H & Hs & Hm & Ht & _).
  exists tt, w'. split; [exact H|].
  apply (sound_same w w'); congruence.
Qed.

Lemma safe_save_state now : safe (save_state now).
Proof.
  intros w Hw.
  destruct (save_state_returns now w) as (w' & H & (Hs & Hm & Ht & _) & _).
  exists tt, w'. split; [exact H|].
  apply (sound_same w w'); congruence.
Qed.

Lemma safe_show d : safe (show d).
Proof. apply safe_modify. intros w. now apply sound_same. Qed.

Lemma safe_root_after ms cb : safe (root_after ms cb).
Proof. apply safe_modify. intros w. now apply sound_same. Qed.

Lemma safe_clock_in now : safe (clock_in now).
Proof.
  intros w (Ht & Hm & Hw).
  destruct (clock_in_returns now w) as (w' & H & Hs & Hm' & Ht' & _).
  exists tt, w'. split; [exact H|].
  unfold sound, times_recorded, monitored, watched.
  rewrite Hs, Hm', Ht'. cbn. destruct Ht as [_ Hbs].
  intuition congruence.
Qed.

Lemma safe_resume_work now : safe (resume_work now).
Proof.
  intros w Hw. destruct (is_on_break (sess w)) eqn:Hb.
  - destruct Hw as ((Hci & Hbs) & Hm & Hwt).
    destruct (break_start_time (sess w)) as [b|] eqn:Eb;
      [|now destruct Hbs].
    destruct (resume_work_resumes now w b Hb Eb)
      as (w' & H & Hs & Hm' & Ht' & _).
    exists tt, w'. split; [exact H|].
    unfold sound, times_recorded, monitored, watched.
    rewrite Hs, Hm', Ht'. cbn. unfold monitored, watched in Hm, Hwt.
    intuition congruence.
  - exists tt, w. split; [apply resume_work_idle, Hb | exact Hw].
Qed.

Lemma safe_take_break now : safe (take_break now).
Proof.
  intros w Hw. destruct (is_on_break (sess w)) eqn:Hb.
  - rewrite (take_break_toggles now w Hb). now apply safe_resume_work.
  - destruct Hw as ((Hci & Hbs) & Hm & Hwt).
    destruct (take_break_starts now w Hb) as (w' & H & Hs & Hm' & Ht' & _).
    exists tt, w'. split; [exact H|].
    unfold sound, times_recorded, monitored, watched.
    rewrite Hs, Hm', Ht'. cbn. unfold monitored, watched in Hm, Hwt.
    intuition congruence.
Qed.

Lemma safe_clock_out auto reason now : safe (clock_out auto reason now).
Proof.
  intros w Hw. destruct (is_logged_in (sess w)) eqn:Hl.
  - destruct Hw as ((Hci & Hbs) & Hm & Hwt).
    destruct (fold_open_period_returns now w Hbs) as (w1 & H1 & _).
    destruct (clock_out_returns auto reason now w w1 Hl H1)
      as (w' & H & Hs & Hm' & _).
    exists tt, w'. split; [exact H|].
    unfold sound, times_recorded, monitored, watched.
    rewrite Hs, Hm'. cbn. intuition congruence.
  - exists tt, w. split; [apply clock_out_idle, Hl | exact Hw].
Qed.

(** Splits a goal [safe c] along the structure of [c]. *)
Ltac safe_steps :=
  repeat first
    [ progress intros
    | match goal with
      | |- safe (bind _ _) => apply safe_bind
      | |- safe (when _ _) => apply safe_when
      | |- safe (ret _) => apply safe_ret
      | |- safe (gets _) => apply safe_gets
      | |- safe (log_activity _ _ _) => apply safe_log_activity
      | |- safe (save_state _) => apply safe_save_state
      | |- safe (show _) => apply safe_show
      | |- safe (root_after _ _) => apply safe_root_after
      | |- safe (clock_in _) => apply safe_clock_in
      | |- safe (take_break _) => apply safe_take_break
      | |- safe (resume_work _) => apply safe_resume_work
      | |- safe (clock_out _ _ _) => apply safe_clock_out
      | |- safe (modify _) =>
          apply safe_modify; intros ? ?; eapply sound_same;
          [| | | |eassumption]; reflexivity
      | |- safe (match ?x with _ => _ end) => destruct x
      end ].

Lemma safe_check_idle_tick now : safe (check_idle_tick now).
Proof. unfold check_idle_tick. safe_steps. Qed.

Lemma safe_cleanup_and_exit w :
  sound w -> is_logged_in (sess w) = false ->
  exists w', cleanup_and_exit w = Returns tt w'
    /\ sound w' /\ running (thr w') = false
    /\ sess w' = sess w /\ activity_log w' = activity_log w
    /\ env w' = env w.
Proof.
  intros ((Hci & Hbs) & (Hm & Hk) & Hw) Hl.
  unfold cleanup_and_exit. step_modify.
  rewrite stop_activity_monitoring_returns.
  eexists. split; [reflexivity|]. cbn.
  unfold sound, times_recorded, monitored, watched. cbn.
  rewrite Hl. repeat split; auto; congruence.
Qed.

Lemma safe_on_closing ok now : safe (on_closing ok now).
Proof.
  intros w Hw. unfold on_closing. step_gets.
  destruct (is_logged_in (sess w)) eqn:Hl.
  - destruct (safe_show (quit_question ok) w Hw) as ([] & w1 & H1 & Hw1).
    unfold quit_question in H1. step_with H1.
    destruct ok; cbn [when]; [|now exists tt, w1].
    destruct (safe_clock_out false "Application closed" now w1 Hw1)
      as ([] & w2 & H2 & Hw2).
    step_with H2.
    assert (Hl2 : is_logged_in (sess w2) = false).
    { destruct (is_logged_in (sess w1)) eqn:Hl1.
      - destruct Hw1 as ((_ & Hbs) & _).
        destruct (fold_open_period_returns now w1 Hbs) as (wf & Hf & _).
        destruct (clock_out_returns false "Application closed" now w1 wf Hl1 Hf)
          as (w' & H & Hs & _).
        rewrite H in H2. injection H2 as <-. rewrite Hs. reflexivity.
      - rewrite (clock_out_idle _ _ _ _ Hl1) in H2. injection H2 as <-.
        exact Hl1. }
    destruct (safe_cleanup_and_exit w2 Hw2 Hl2) as (w3 & H3 & Hw3 & _).
    now exists tt, w3.
  - destruct (safe_cleanup_and_exit w Hw Hl) as (w3 & H3 & Hw3 & _).
    now exists tt, w3.
Qed.

Lemma safe_handle ev :
  match ev with EvGapTick _ => False | _ => True end -> safe (handle ev).
Proof.
  destruct ev as [now|now|now|v now|ok now|now|k answer now|now|now];
    intros Hev; try contradiction; cbn [handle].
  - apply safe_clock_in.
  - apply safe_take_break.
  - apply safe_clock_out.
  - unfold update_settings. safe_steps.
  - apply safe_on_closing.
  - unfold update_activity_time. safe_steps.
  - unfold run_callback, prompt_clock_in_after_resume. safe_steps.
  - apply safe_check_idle_tick.
Qed.

Lemma sound_boot now e : sound (world_of (boot now e)).
Proof.
  start_up_cases e; cbn;
    (split; [split; cbn; discriminate|]);
    (split; [split; reflexivity | intros H; cbn in H; discriminate]).
Qed.

Lemma sound_step ev w :
  sound w -> detector w = (false, None) ->
  sound (step ev w) /\ detector (step ev w) = (false, None)
  /\ (enabled ev w = true -> exists w', handle ev w = Returns tt w').
Proof.
  intros Hw Hd.
  assert (Hoff : sleep_detector_thread (thr w) = false)
    by (unfold detector in Hd; congruence).
  split; [|split].
  - unfold step. destruct (enabled ev w) eqn:Hen; [|exact Hw].
    assert (Hev : match ev with EvGapTick _ => False | _ => True end).
    { destruct ev; try exact I. unfold enabled in Hen. rewrite Hoff in Hen.
      rewrite andb_false_r in Hen. discriminate. }
    destruct (safe_handle ev Hev w Hw) as ([] & w' & H & Hw').
    rewrite H. exact Hw'.
  - rewrite detector_step; assumption.
  - intros Hen.
    assert (Hev : match ev with EvGapTick _ => False | _ => True end).
    { destruct ev; try exact I. unfold enabled in Hen. rewrite Hoff in Hen.
      rewrite andb_false_r in Hen. discriminate. }
    destruct (safe_handle ev Hev w Hw) as ([] & w' & H & _). now exists w'.
Qed.

Lemma sound_run_events evs : forall w,
  sound w -> detector w = (false, None) ->
  sound (run_events evs w) /\ detector (run_events evs w) = (false, None).
Proof.
  induction evs as [|ev evs IH]; intros w Hw Hd; [now split|].
  cbn [run_events fold_left].
  destruct (sound_step ev w Hw Hd) as (Hw' & Hd' & _).
  apply IH; assumption.
Qed.

(** X9. In every run of the program on files of the model (typed as
    [save_state] and [save_log] write them) and with a spinbox that
    holds an integer whenever it is read, from start-up through any
    events of the main loop, no handler raises: each event that can
    happen returns normally.  In particular the TypeError of
    [resume_work] and [clock_out] on a missing break start is never met.
    (A log file that holds an object, or text in the spinbox that is no
    integer, makes [log_activity] or the read of the IntVar raise: such
    runs are not runs of the model.) *)
Theorem main_loop_never_raises :
  forall (t0 : Instant) (e : Env) (evs : list Event) (ev : Event),
    enabled ev (run_events evs (world_of (boot t0 e))) = true ->
    exists w', handle ev (run_events evs (world_of (boot t0 e))) = Returns tt w'.
Proof.
  intros t0 e evs ev Hen.
  destruct (sound_run_events evs _ (sound_boot t0 e) (boot_detector t0 e))
    as (Hw & Hd).
  apply (sound_step ev _ Hw Hd). exact Hen.
Qed.

Lemma main_loop_never_raises_witness :
  exists w',
    handle (EvBreakBtn (at_secs 1400))
      (run_events [EvClockInBtn (at_secs 1000); EvBreakBtn (at_secs 1100)]
         (world_of (boot (at_secs 1) no_files)))
    = Returns tt w'.
Proof.
  apply (main_loop_never_raises (at_secs 1) no_files
           [EvClockInBtn (at_secs 1000); EvBreakBtn (at_secs 1100)]
           (EvBreakBtn (at_secs 1400))).
  vm_compute. reflexivity.
Defined.

(** X10. In every run of the program on files of the model (typed as
    [save_state] and [save_log] write them) and with a spinbox that
    holds an integer whenever it is read, the mouse and keyboard
    listeners are running exactly while the session is logged in, and a
    logged-in session always has a live idle-check thread.  (A string as
    the timeout in the configuration file makes the comparison in
    [check_idle_status] raise, which ends the thread: such runs are not
    runs of the model.) *)
Theorem monitored_exactly_while_logged_in :
  forall (t0 : Instant) (e : Env) (evs : list Event),
    mouse_listener (mon (run_events evs (world_of (boot t0 e))))
    = is_logged_in (sess (run_events evs (world_of (boot t0 e))))
    /\ keyboard_listener (mon (run_events evs (world_of (boot t0 e))))
       = is_logged_in (sess (run_events evs (world_of (boot t0 e))))
    /\ (status (run_events evs (world_of (boot t0 e))) <> LoggedOut ->
        idle_checker_thread (thr (run_events evs (world_of (boot t0 e))))
        = true).
Proof.
  intros t0 e evs.
  destruct (sound_run_events evs _ (sound_boot t0 e) (boot_detector t0 e))
    as ((_ & (Hm & Hk) & Hw) & _).
  split; [exact Hm|]. split; [exact Hk|].
  intros Hs. apply Hw.
  destruct (is_logged_in (sess (run_events evs (world_of (boot t0 e)))))
    eqn:E; [reflexivity|].
  exfalso. apply Hs, status_logged_out, E.
Qed.

(* ------------------------------------------------------------------ *)
(** ** The idle check in a run *)

(** X11. Activity postpones the idle timeout: after an input event, a
    clock-in or a resumption at second [t], an idle check at any instant
    no more than the timeout later changes nothing. *)
Theorem activity_postpones_idle_timeout :
  forall (t now : Instant) (w : World),
    secs now - secs t <= idle_timeout_seconds (mon w) ->
    (exists w1, update_activity_time t w = Returns tt w1
                /\ check_idle_tick now w1 = Returns tt w1)
    /\ (exists w1, clock_in t w = Returns tt w1
                   /\ check_idle_tick now w1 = Returns tt w1)
    /\ (is_on_break (sess w) = true -> break_start_time (sess w) <> None ->
        exists w1, resume_work t w = Returns tt w1
                   /\ check_idle_tick now w1 = Returns tt w1).
Proof.
  intros t now w Hle.
  assert (Hquiet : forall w1,
            last_activity_time (mon w1) = secs t ->
            idle_timeout_seconds (mon w1) = idle_timeout_seconds (mon w) ->
            check_idle_tick now w1 = Returns tt w1).
  { intros w1 Hla Hto. rewrite check_idle_tick_cases, Hla, Hto.
    destruct (Z.ltb_spec (idle_timeout_seconds (mon w)) (secs now - secs t));
      [lia|]. rewrite andb_false_r. reflexivity. }
  split; [|split].
  - eexists. split; [reflexivity|]. apply Hquiet; reflexivity.
  - destruct (clock_in_returns t w) as (w1 & H1 & _ & Hm & _).
    exists w1. split; [exact H1|]. apply Hquiet; rewrite Hm; reflexivity.
  - intros Hb Hbs. destruct (break_start_time (sess w)) as [b|] eqn:Eb;
      [|contradiction].
    destruct (resume_work_resumes t w b Hb Eb) as (w1 & H1 & _ & Hm & _).
    exists w1. split; [exact H1|]. apply Hquiet; rewrite Hm; reflexivity.
Qed.

Lemma activity_postpones_idle_timeout_witness :
  (exists w1, update_activity_time (at_secs 2000) working = Returns tt w1
              /\ check_idle_tick (at_secs 2300) w1 = Returns tt w1)
  /\ (exists w1, resume_work (at_secs 2000) pausing = Returns tt w1
                 /\ check_idle_tick (at_secs 2300) w1 = Returns tt w1).
Proof.
  split.
  - apply (activity_postpones_idle_timeout (at_secs 2000) (at_secs 2300)
             working). vm_compute. discriminate.
  - apply (activity_postpones_idle_timeout (at_secs 2000) (at_secs 2300)
             pausing).
    + vm_compute. discriminate.
    + reflexivity.
    + vm_compute. discriminate.
Defined.

(** X12. The automatic clock-out on idle timeout counts the idle time as
    active time: the summary it logs reports the active time up to the
    instant of the check, not up to the last activity. *)
Theorem idle_clock_out_counts_idle_time :
  forall (now : Instant) (w : World) (c : Z),
    status w = Active ->
    clock_in_time (sess w) = Some c -> c <> 0 ->
    secs now - last_activity_time (mon w) > idle_timeout_seconds (mon w) ->
    exists w',
      check_idle_tick now w = Returns tt w'
      /\ last (activity_log w') (mkEntry "" "" "")
         = mkEntry (stamp now) "CLOCK_OUT"
             ("Idle timeout | Active: "
              ++ timedelta_str (total_active_time (sess w) + (secs now - c))
              ++ " | Breaks: "
              ++ timedelta_str (total_break_time (sess w))).
Proof.
  intros now w c Hs Hc Hc0 Hidle. apply status_active in Hs.
  destruct Hs as [Hl Hb].
  rewrite check_idle_tick_cases, Hl, Hb. cbn [andb negb].
  destruct (Z.ltb_spec (idle_timeout_seconds (mon w))
              (secs now - last_activity_time (mon w))) as [_|Hle]; [|lia].
  destruct (log_activity_returns now "IDLE_TIMEOUT"
              ("Idle for "
               ++ str_int (minutes (secs now - last_activity_time (mon w)))
               ++ " minutes") w)
    as (w1 & H1 & Hs1 & _).
  destruct (fold_open_period_returns now w1) as (w2 & H2 & Hs2 & _).
  { rewrite Hs1, Hb. discriminate. }
  destruct (clock_out_returns true "Idle timeout" now w1 w2) as
    (w' & H' & _ & _ & _ & _ & _ & Hl'); [congruence | exact H2 |].
  exists w'. step_with H1. split; [exact H'|].
  rewrite Hl', lastn_snoc_last by lia.
  rewrite Hs2, Hs1, Hb, Hc.
  destruct (Z.eqb_spec c 0); [contradiction|]. reflexivity.
Qed.

Lemma idle_clock_out_counts_idle_time_witness :
  exists w',
    check_idle_tick (at_secs 1301) working = Returns tt w'
    /\ last (activity_log w') (mkEntry "" "" "")
       = mkEntry (stamp (at_secs 1301)) "CLOCK_OUT"
           ("Idle timeout | Active: "
            ++ timedelta_str (total_active_time (sess working)
                              + (secs (at_secs 1301) - 1000))
            ++ " | Breaks: "
            ++ timedelta_str (total_break_time (sess working))).
Proof.
  apply (idle_clock_out_counts_idle_time (at_secs 1301) working 1000).
  - reflexivity.
  - reflexivity.
  - lia.
  - vm_compute. reflexivity.
Defined.

(* ------------------------------------------------------------------ *)
(** ** Closing the window *)




(* ------------------------------------------------------------------ *)
(** ** The displays *)

(** X14. The active time on display is continuous across a break: from
    an Active session, the text shown at the instant the break starts is
    what the label shows at every instant of the break, and what it shows
    at the instant work is resumed. *)
Theorem active_display_frozen_during_break :
  forall (t1 t2 : Instant) (w : World) (c : Z),
    is_on_break (sess w) = false ->
    clock_in_time (sess w) = Some c -> c <> 0 ->
    secs t2 <> 0 ->
    exists w1 w2,
      take_break t1 w = Returns tt w1
      /\ resume_work t2 w1 = Returns tt w2
      /\ forall (during : Instant) (ui ui' : Labels),
           active_time_label (update_time_displays during w1 ui')
           = active_time_label (update_time_displays t1 w ui)
           /\ active_time_label (update_time_displays t2 w2 ui')
              = active_time_label (update_time_displays t1 w ui).
Proof.
  intros t1 t2 w c Hb Hc Hc0 Ht2.
  destruct (take_break_starts t1 w Hb) as (w1 & H1 & Hs1 & _).
  destruct (resume_work_resumes t2 w1 (secs t1)) as (w2 & H2 & Hs2 & _);
    [rewrite Hs1; reflexivity | rewrite Hs1; reflexivity |].
  exists w1, w2. split; [exact H1|]. split; [exact H2|].
  intros during ui ui'. unfold update_time_displays.
  rewrite Hs2, Hs1, Hb, Hc. cbn.
  destruct (Z.eqb_spec c 0); [contradiction|].
  destruct (Z.eqb_spec (secs t2) 0); [contradiction|]. cbn.
  split; [reflexivity|].
  replace (total_active_time (sess w) + (secs t1 - c) + (secs t2 - secs t2))
    with (total_active_time (sess w) + (secs t1 - c)) by lia.
  reflexivity.
Qed.

Lemma active_display_frozen_during_break_witness :
  exists w1 w2,
    take_break (at_secs 1100) working = Returns tt w1
    /\ resume_work (at_secs 1400) w1 = Returns tt w2
    /\ forall (during : Instant) (ui ui' : Labels),
         active_time_label (update_time_displays during w1 ui')
         = active_time_label (update_time_displays (at_secs 1100) working ui)
         /\ active_time_label (update_time_displays (at_secs 1400) w2 ui')
            = active_time_label (update_time_displays (at_secs 1100) working ui).
Proof.
  apply (active_display_frozen_during_break (at_secs 1100) (at_secs 1400)
           working 1000).
  - reflexivity.
  - reflexivity.
  - lia.
  - cbn. lia.
Defined.

Lemma refresh_log_display_length l :
  List.length (refresh_log_display l) = Nat.min 20 (List.length l).
Proof.
  unfold refresh_log_display. rewrite length_map, length_rev.
  apply lastn_length.
Qed.

(** X15. The log text box shows the last 20 entries, or all of them if
    there are fewer, newest first: line [k] from the top is the [k]-th
    entry counted from the end of the log.  After [log_activity] the top
    line is the entry just logged. *)
Theorem log_display_newest_first :
  forall (l : list LogEntry),
    List.length (refresh_log_display l) = Nat.min 20 (List.length l)
    /\ (forall k, (k < Nat.min 20 (List.length l))%nat ->
          nth_error (refresh_log_display l) k
          = option_map log_line (nth_error l (List.length l - S k)))
    /\ (forall now ev d w,
          exists w', log_activity now ev d w = Returns tt w'
            /\ hd_error (refresh_log_display (activity_log w'))
               = Some (log_line (mkEntry (stamp now) ev d))).
Proof.
  intros l. split; [apply refresh_log_display_length|]. split.
  - intros k Hk. unfold refresh_log_display.
    rewrite nth_error_map, nth_error_rev, lastn_length.
    destruct (Nat.ltb_spec k (Nat.min 20 (List.length l))) as [_|]; [|lia].
    f_equal. unfold lastn. rewrite nth_error_skipn. f_equal. lia.
  - intros now ev d w.
    destruct (log_activity_returns now ev d w)
      as (w' & H & _ & _ & _ & _ & _ & Hl).
    exists w'. split; [exact H|].
    assert (Hlast : last (activity_log w') (mkEntry "" "" "")
                    = mkEntry (stamp now) ev d).
    { rewrite Hl. apply lastn_snoc_last. lia. }
    assert (Hne : activity_log w' <> []).
    { rewrite Hl. intros E. apply (f_equal (@List.length _)) in E.
      rewrite lastn_length, length_app in E. cbn [List.length] in E. lia. }
    revert Hlast Hne. generalize (activity_log w') as l'.
    intros l' Hlast Hne. unfold refresh_log_display.
    destruct (exists_last Hne) as (l0 & x & ->).
    rewrite last_last in Hlast. subst x.
    unfold lastn. rewrite skipn_app, length_app. cbn [List.length].
    replace (List.length l0 + 1 - 20 - List.length l0)%nat with 0%nat by lia.
    cbn [skipn]. rewrite rev_app_distr. reflexivity.
Qed.

Lemma log_display_newest_first_witness :
  nth_error (refresh_log_display (map entry_of (map numbered (seq 1 25)))) 0
  = option_map log_line
      (nth_error (map entry_of (map numbered (seq 1 25))) 24).
Proof.
  apply (proj1 (proj2 (log_display_newest_first
                         (map entry_of (map numbered (seq 1 25))))) 0%nat).
  vm_compute. lia.
Defined.

(* ------------------------------------------------------------------ *)
(** ** The native sleep and shutdown callbacks *)







(** X17. The Windows message handler never lets an exception out: it
    returns for every message in every state of the tracker, and a
    message that is none of the four it knows is left to DefWindowProc
    with the tracker untouched. *)
Theorem windows_handler_never_raises :
  forall (c : Win32) (msg wparam : Z) (now : Instant) (w : World),
    (exists r w', windows_message_handler c msg wparam now w = Returns r w')
    /\ (msg <> WM_QUERYENDSESSION c -> msg <> WM_ENDSESSION c ->
        msg <> WM_POWERBROADCAST c -> msg <> 689 ->
        windows_message_handler c msg wparam now w
        = Returns WinDefWindowProc w).
Proof.
  intros c msg wparam now w. split.
  - assert (H : never_raises (windows_message_handler c msg wparam now)).
    { unfold windows_message_handler, print. frame. }
    apply H.
  - intros H1 H2 H3 H4.
    unfold windows_message_handler, windows_message_body.
    destruct (Z.eqb_spec msg (WM_QUERYENDSESSION c)); [contradiction|].
    destruct (Z.eqb_spec msg (WM_ENDSESSION c)); [contradiction|].
    destruct (Z.eqb_spec msg (WM_POWERBROADCAST c)); [contradiction|].
    destruct (Z.eqb_spec msg 689); [contradiction|].
    reflexivity.
Qed.

(** The handler swallows the TypeError of a clock-out whose break start
    is missing: the message goes to DefWindowProc and a line is printed. *)
Example windows_handler_swallows_type_error :
  let broken := with_sess (set_break_start_time None) pausing in
  exists w',
    windows_message_handler pywin32 17 0 (at_secs 1200) broken
    = Returns WinDefWindowProc w'
    /\ last (console (env w')) "" =
       "Error in message handler: unsupported operand type(s) for -: 'float' and 'NoneType'".
Proof. cbv zeta. eexists. split; vm_compute; reflexivity. Qed.



(* ------------------------------------------------------------------ *)
(** ** The gap detector once a last check is recorded *)



(* ------------------------------------------------------------------ *)
(** ** The automatic clock-in *)

(** X20. After a flagged start-up, the scheduled callback, when it
    fires, starts a new session from zero at that instant: the session is
    Active, both accumulators are 0 and nothing stays scheduled.  What
    the interrupted session had accumulated is not restored. *)
Theorem interrupted_session_restarts_from_zero :
  forall (now t : Instant) (answer : bool) (e : Env),
    flagged e = true ->
    after_queue e = [] ->
    sess (step (EvAfter 0 answer t) (world_of (boot now e)))
    = mkSession true false (Some (secs t)) None 0 0
    /\ after_queue (env (step (EvAfter 0 answer t) (world_of (boot now e))))
       = [].
Proof.
  intros now t answer e Hf Ha.
  destruct (startup_flags now e) as (w & Hw & Haq & _).
  rewrite Hf, Ha in Haq. cbn in Haq.
  assert (Hs : sess w = mkSession false false None None 0 0).
  { pose proof (boot_session now e) as H. rewrite Hw in H. exact H. }
  assert (Hr : running (thr w) = true).
  { clear - Hw. revert Hw. start_up_cases e; cbn; intros Hw;
      injection Hw as <-; reflexivity. }
  rewrite Hw. cbn [world_of]. unfold step, enabled. rewrite Hr, Haq.
  cbn [nth_error andb handle].
  step_gets. rewrite Haq. cbn [nth_error remove_nth run_callback].
  step_modify.
  destruct (clock_in_returns t
              (with_env (set_after_queue []) w))
    as (w' & H' & Hs' & _ & _ & _ & Ha' & _).
  rewrite H'. split; [rewrite Hs'; cbn; rewrite Hs; reflexivity|].
  rewrite Ha'. reflexivity.
Qed.

Lemma interrupted_session_restarts_from_zero_witness :
  sess (step (EvAfter 0 false (at_secs 1001))
          (world_of (boot (at_secs 999) interrupted)))
  = mkSession true false (Some (secs (at_secs 1001))) None 0 0
  /\ after_queue (env (step (EvAfter 0 false (at_secs 1001))
                         (world_of (boot (at_secs 999) interrupted))))
     = [].
Proof.
  apply (interrupted_session_restarts_from_zero (at_secs 999) (at_secs 1001)
           false interrupted); reflexivity.
Defined.
